(** * atm-simulator: the ledger and session engine of [app.py]

    A shallow embedding of the request handlers of [src/app.py] and the
    properties of the ledger specification checked against them.

    Modelling conventions.
    - [DATA_FILE] is the only state.  Every handler starts with [load_data]
      and ends, on its success path, with [save_data]; a handler is a
      function from the file's content to a reply and the new content.
    - Money is a Python float: an IEEE 754 binary64 number, here a primitive
      [float] with the same rounding, infinities and NaN.  A number read from
      JSON is an int or a float, and Python compares an int with a float
      exactly and converts it to a float before it adds or subtracts.
    - The amount of a request is what [float(data.get('amount', 0))] makes
      of the field: its value, or [None] when [float] raises (null, a list,
      a string that is no number, an int beyond the float range).
    - A Python [str] is held as the bytes of its UTF-8 encoding, the form in
      which the request and [DATA_FILE] carry it; [len] and [str.isdigit]
      work on the code points these bytes encode.
    - A [datetime] is a number of microseconds on the local time line;
      [isoformat]/[fromisoformat] round-trip it.  A handler reads the clock
      several times within one request; one reading [now] serves the whole
      request.  [check_account_lock] keeps its two readings apart, because
      the figure it reports depends on both.
    - Random draws ([random.choices], the salt of [generate_password_hash])
      are arguments of the handler that makes them.
    - Account numbers, tokens, PINs and names are strings: a request whose
      field has another JSON type is outside this model.
    - An uncaught Python exception ([KeyError], [TypeError], [ValueError],
      [OverflowError]) is the reply [ServerError]; what was saved before it
      was raised stays saved. *)

From Stdlib Require Import PrimFloat SpecFloat FloatOps FloatAxioms.
From Stdlib Require Import ZArith Lia String Ascii List.
From stdpp Require Import gmap strings list fin_maps sorting.
Import ListNotations.

Set Warnings "-inexact-float".

Local Open Scope Z_scope.

(** ** Time *)

Abbreviation time := Z (only parsing).

Definition minutes (n : Z) : Z := n * 60 * 1000000.

(** [datetime.date()]: the calendar day of an instant. *)
Definition date (t : time) : Z := t / (86400 * 1000000).

(** [timedelta.seconds]: a timedelta is normalised to days, a number of
    seconds in [0, 86400) and microseconds, also when it is negative. *)
Definition td_seconds (delta : Z) : Z := (delta / 1000000) mod 86400.

(** ** Numbers *)

(** [float(n)] for a Python int [n], as [float] and the arithmetic operators
    convert it: rounded to the nearest float, ties to even.  [None] is the
    [OverflowError] of an int beyond the float range. *)
Definition float_of_int (z : Z) : option float :=
  let x := SF2Prim (binary_normalize prec emax z 0 false) in
  if PrimFloat.is_infinity x then None else Some x.

(** [n > x] for a Python int [n] and a float [x]: the exact values are
    compared, and nothing is greater than NaN. *)
Definition int_gtb_float (z : Z) (x : float) : bool :=
  match Prim2SF x with
  | S754_nan => false
  | S754_infinity negative => negative
  | S754_zero _ => 0 <? z
  | S754_finite negative m e =>
      let v := if negative then Z.neg m else Z.pos m in
      if 0 <=? e then v * 2 ^ e <? z else v <? z * 2 ^ (- e)
  end.

(** ** Strings *)

(** The value bits of the first byte of a UTF-8 sequence. *)
Definition lead_value (n : Z) : Z :=
  if n <? 128 then n
  else if n <? 224 then n mod 32
  else if n <? 240 then n mod 16
  else n mod 8.

(** A continuation byte, 10xxxxxx, carries six more bits of the code point
    in progress; any other byte starts the next code point. *)
Fixpoint code_points_from (cur : Z) (bytes : list ascii) : list Z :=
  match bytes with
  | [] => [cur]
  | b :: rest =>
      let n := Z.of_N (N_of_ascii b) in
      if (128 <=? n) && (n <? 192) then code_points_from (cur * 64 + n mod 64) rest
      else cur :: code_points_from (lead_value n) rest
  end.

(** The code points of a [str]. *)
Definition code_points (s : string) : list Z :=
  match list_ascii_of_string s with
  | [] => []
  | b :: rest => code_points_from (lead_value (Z.of_N (N_of_ascii b))) rest
  end.

(** [len(s)] *)
Definition len (s : string) : nat := length (code_points s).

(** The code points [c] for which [chr(c).isdigit()] holds: those whose
    Unicode Numeric_Type is Decimal or Digit (Unicode 14.0, the table of
    CPython 3.11), as inclusive ranges. *)
Definition digit_ranges : list (Z * Z) :=
  [(48, 57); (178, 179); (185, 185); (1632, 1641); (1776, 1785);
   (1984, 1993); (2406, 2415); (2534, 2543); (2662, 2671); (2790, 2799);
   (2918, 2927); (3046, 3055); (3174, 3183); (3302, 3311); (3430, 3439);
   (3558, 3567); (3664, 3673); (3792, 3801); (3872, 3881); (4160, 4169);
   (4240, 4249); (4969, 4977); (6112, 6121); (6160, 6169); (6470, 6479);
   (6608, 6618); (6784, 6793); (6800, 6809); (6992, 7001); (7088, 7097);
   (7232, 7241); (7248, 7257); (8304, 8304); (8308, 8313); (8320, 8329);
   (9312, 9320); (9332, 9340); (9352, 9360); (9450, 9450); (9461, 9469);
   (9471, 9471); (10102, 10110); (10112, 10120); (10122, 10130);
   (42528, 42537); (43216, 43225); (43264, 43273); (43472, 43481);
   (43504, 43513); (43600, 43609); (44016, 44025); (65296, 65305);
   (66720, 66729); (68160, 68163); (68912, 68921); (69216, 69224);
   (69714, 69722); (69734, 69743); (69872, 69881); (69942, 69951);
   (70096, 70105); (70384, 70393); (70736, 70745); (70864, 70873);
   (71248, 71257); (71360, 71369); (71472, 71481); (71904, 71913);
   (72016, 72025); (72784, 72793); (73040, 73049); (73120, 73129);
   (92768, 92777); (92864, 92873); (93008, 93017); (120782, 120831);
   (123200, 123209); (123632, 123641); (125264, 125273); (127232, 127242);
   (130032, 130041)].

Definition is_digit (c : Z) : bool :=
  existsb (fun r => (r.1 <=? c) && (c <=? r.2)) digit_ranges.

(** [s.isdigit()]: [s] is not empty and all its characters are digits. *)
Definition isdigit (s : string) : bool :=
  negb (String.eqb s "") && forallb is_digit (code_points s).

(** [not pin or len(pin) != 4 or not pin.isdigit()] *)
Definition bad_pin (pin : string) : bool :=
  String.eqb pin "" || negb (Nat.eqb (len pin) 4) || negb (isdigit pin).

(** ** Data model *)

(** A JSON value stored under a preference key or sent as a request field.
    Arrays and objects behave like [PStr] wherever the handlers use such a
    value (a [TypeError] in every comparison with a number and in a
    slice). *)
Inductive pval :=
| PInt (z : Z)
| PFloat (x : float)
| PBool (b : bool)
| PStr (s : string)
| PNull.

(** A Python number. *)
Inductive number :=
| NInt (z : Z)
| NFloat (x : float).

(** The number Python computes with when [v] meets a float in [>], [+] or
    [-]; [bool] is a subclass of [int].  [None] is the [TypeError] of a
    value that is no number. *)
Definition as_number (v : pval) : option number :=
  match v with
  | PInt z => Some (NInt z)
  | PFloat x => Some (NFloat x)
  | PBool true => Some (NInt 1)
  | PBool false => Some (NInt 0)
  | PStr _ | PNull => None
  end.

(** [n > x] for a float [x]. *)
Definition number_gtb_float (n : number) (x : float) : bool :=
  match n with
  | NInt z => int_gtb_float z x
  | NFloat y => PrimFloat.ltb x y
  end.


(** The float that [x + n] and [x - n] compute with, for a float [x]. *)
Definition to_float (n : number) : option float :=
  match n with
  | NInt z => float_of_int z
  | NFloat y => Some y
  end.

Record account := Account {
  pin_hash : string;
  balance : float;
  name : string;
  account_type : string;
  daily_limit : float;
  daily_withdrawn : float;
  last_reset : time;
  created_at : time;
  preferences : gmap string pval
}.

Inductive txn_type := deposit_t | withdrawal_t | transfer_t | fast_cash_t.

(** The account reference of a transaction: the key [account_number], or the
    pair of keys [from_account], [to_account]. *)
Inductive txn_ref :=
| Single (account_number : string)
| FromTo (from_account to_account : string).

Record transaction := Transaction {
  t_id : string;
  t_type : txn_type;
  t_amount : pval;
  t_timestamp : time;
  t_balance_after : float;
  t_ref : txn_ref;
  t_note : option string
}.

Record session := Session {
  s_account_number : string;
  s_created_at : time;
  s_expires_at : time
}.

(** The dictionary of [load_data]. *)
Record db := Db {
  accounts : gmap string account;
  transactions : list transaction;
  failed_attempts : gmap string Z;
  locked_accounts : gmap string time;
  session_tokens : gmap string session
}.

(** The content of [DATA_FILE]: the ledger dictionary, or a JSON object with
    none of its five keys. *)
Inductive document :=
| Ledger (d : db)
| Foreign.

Definition empty_db : db := Db ∅ [] ∅ ∅ ∅.

(** Field updates, as the handlers assign them. *)
Definition set_accounts (a : gmap string account) (d : db) : db :=
  Db a (transactions d) (failed_attempts d) (locked_accounts d) (session_tokens d).
Definition set_transactions (t : list transaction) (d : db) : db :=
  Db (accounts d) t (failed_attempts d) (locked_accounts d) (session_tokens d).
Definition set_failed_attempts (f : gmap string Z) (d : db) : db :=
  Db (accounts d) (transactions d) f (locked_accounts d) (session_tokens d).
Definition set_locked_accounts (l : gmap string time) (d : db) : db :=
  Db (accounts d) (transactions d) (failed_attempts d) l (session_tokens d).
Definition set_session_tokens (s : gmap string session) (d : db) : db :=
  Db (accounts d) (transactions d) (failed_attempts d) (locked_accounts d) s.

Definition set_balance (b : float) (a : account) : account :=
  Account (pin_hash a) b (name a) (account_type a) (daily_limit a)
          (daily_withdrawn a) (last_reset a) (created_at a) (preferences a).
Definition set_daily_withdrawn (w : float) (a : account) : account :=
  Account (pin_hash a) (balance a) (name a) (account_type a) (daily_limit a)
          w (last_reset a) (created_at a) (preferences a).
Definition set_last_reset (t : time) (a : account) : account :=
  Account (pin_hash a) (balance a) (name a) (account_type a) (daily_limit a)
          (daily_withdrawn a) t (created_at a) (preferences a).
Definition set_pin_hash (h : string) (a : account) : account :=
  Account h (balance a) (name a) (account_type a) (daily_limit a)
          (daily_withdrawn a) (last_reset a) (created_at a) (preferences a).
Definition set_preferences (p : gmap string pval) (a : account) : account :=
  Account (pin_hash a) (balance a) (name a) (account_type a) (daily_limit a)
          (daily_withdrawn a) (last_reset a) (created_at a) p.
Definition set_expires_at (t : time) (s : session) : session :=
  Session (s_account_number s) (s_created_at s) t.

(** [db_data['session_tokens'][token]['expires_at'] =
     (datetime.now() + timedelta(minutes=30)).isoformat()] *)
Definition renew (token : string) (now : time) (d : db) : db :=
  set_session_tokens
    (alter (set_expires_at (now + minutes 30)) token (session_tokens d)) d.

(** ** Replies *)

Inductive message :=
| msg_valid_name            (* Enter valid name (min 2 characters) *)
| msg_pin_4_digits          (* PIN must be 4 digits *)
| msg_negative_deposit      (* Initial deposit cannot be negative *)
| msg_credentials_required  (* Account number and PIN required *)
| msg_locked_try_again (minutes_remaining : Z)
| msg_account_not_found
| msg_locked_3_attempts     (* Account locked due to 3 failed attempts *)
| msg_invalid_pin (attempts_remaining : Z)
| msg_session_expired
| msg_invalid_amount
| msg_max_withdrawal        (* Maximum withdrawal limit is $10,000 *)
| msg_daily_limit (remaining : option float)
| msg_insufficient_funds
| msg_max_deposit           (* Maximum deposit limit is $50,000 *)
| msg_max_transfer          (* Maximum transfer limit is $10,000 *)
| msg_same_account          (* Cannot transfer to same account *)
| msg_recipient_not_found
| msg_current_pin_incorrect.

Inductive payload :=
| registered (number name : string) (balance : float)
| logged_in (token number name type : string) (balance : float)
| logged_out
| balance_info (balance daily_limit daily_remaining : float) (account_type : string)
| moved (new_balance : float) (transaction_id : string) (timestamp : time)
| history (l : list transaction)
| pin_changed
| fast_cashed (amount : pval) (new_balance : float) (transaction_id : string)
| prefs (p : gmap string pval)
| info (number name type : string) (balance daily_limit : float) (created_at : time).

Inductive reply :=
| Success (p : payload)
| Failure (status : Z) (m : message)
| ServerError.

Definition is_success (r : reply) : bool :=
  match r with Success _ => true | _ => false end.

(** ** The hashing collaborator (werkzeug.security) *)

Class Hasher := {
  (** [generate_password_hash(pin)], for the salt it draws. *)
  generate_password_hash : string -> string -> string;
  (** [check_password_hash(digest, pin)]. *)
  check_password_hash : string -> string -> bool
}.

(** ** Helpers of [app.py] *)

(** [now] is the clock reading of the test of line 43, [now'] the one of
    line 44, taken after it. *)
Definition check_account_lock (now now' : time) (account_number : string)
    (d : db) : (bool * Z) * db :=
  match locked_accounts d !! account_number with
  | Some lock_time =>
      if now <? lock_time + minutes 30 then
        let remaining := td_seconds (lock_time + minutes 30 - now') / 60 in
        ((true, remaining), d)
      else
        ((false, 0),
         set_failed_attempts (delete account_number (failed_attempts d))
           (set_locked_accounts (delete account_number (locked_accounts d)) d))
  | None => ((false, 0), d)
  end.

Definition reset_account (now : time) (a : account) : account :=
  if date (last_reset a) <? date now then
    set_last_reset now (set_daily_withdrawn 0%float a)
  else a.

Definition reset_daily_limits (now : time) (d : db) : db :=
  set_accounts (reset_account now <$> accounts d) d.

(** The loop of [generate_account_number] over the numbers it draws: the
    first one that is not an account.  [None]: none of [draws] is free and
    the loop is still drawing. *)
Fixpoint generate_account_number (draws : list string) (d : db) : option string :=
  match draws with
  | [] => None
  | acc_num :: rest =>
      match accounts d !! acc_num with
      | None => Some acc_num
      | Some _ => generate_account_number rest d
      end
  end.

Definition default_preferences : gmap string pval :=
  <["fast_cash_amount" := PInt 100]>
    (<["receipt_enabled" := PBool true]>
       (<["language" := PStr "en"]> ∅)).

Section Handlers.

Context `{Hasher}.

(** ** /api/register.  [name] is the stripped name and [initial_deposit]
    what [float] makes of the field, before anything is validated.  The
    result is [None] while [generate_account_number] has not found a free
    number. *)
Definition register (name pin : string) (initial_deposit : option float)
    (now : time) (draws : list string) (salt txid : string) (f : document)
  : option (reply * document) :=
  match initial_deposit with
  | None => Some (ServerError, f)
  | Some initial_deposit =>
  if String.eqb name "" || (len name <? 2)%nat then
    Some (Failure 400 msg_valid_name, f)
  else if bad_pin pin then Some (Failure 400 msg_pin_4_digits, f)
  else if PrimFloat.ltb initial_deposit 0 then
    Some (Failure 400 msg_negative_deposit, f)
  else
    match f with
    | Foreign => Some (ServerError, f)
    | Ledger db_data =>
        match generate_account_number draws db_data with
        | None => None
        | Some account_number =>
            let account :=
              Account (generate_password_hash salt pin) initial_deposit name
                      "Savings" 5000%float 0%float now now default_preferences in
            let db1 :=
              set_accounts (<[account_number := account]> (accounts db_data))
                           db_data in
            let db2 :=
              if PrimFloat.ltb 0 initial_deposit then
                set_transactions
                  (transactions db1 ++
                   [Transaction txid deposit_t (PFloat initial_deposit) now
                      initial_deposit (Single account_number)
                      (Some "Initial deposit")]) db1
              else db1 in
            Some (Success (registered account_number name initial_deposit),
                  Ledger db2)
        end
    end
  end.

(** ** /api/login.  [session_token] is the draw of
    [generate_transaction_id]. *)
Definition login (account_number pin : string) (now : time)
    (session_token : string) (f : document) : reply * document :=
  if String.eqb account_number "" || String.eqb pin "" then
    (Failure 400 msg_credentials_required, f)
  else
    match f with
    | Foreign => (ServerError, f)
    | Ledger d0 =>
        let '((is_locked, minutes_remaining), db_data) :=
          check_account_lock now now account_number d0 in
        if is_locked then
          (Failure 403 (msg_locked_try_again minutes_remaining), Ledger db_data)
        else
          match accounts db_data !! account_number with
          | None => (Failure 404 msg_account_not_found, Ledger db_data)
          | Some account =>
              if check_password_hash (pin_hash account) pin then
                let db1 :=
                  set_failed_attempts
                    (delete account_number (failed_attempts db_data)) db_data in
                let db2 :=
                  set_session_tokens
                    (<[session_token :=
                         Session account_number now (now + minutes 30)]>
                       (session_tokens db1)) db1 in
                (Success (logged_in session_token account_number (name account)
                            (account_type account) (balance account)),
                 Ledger (reset_daily_limits now db2))
              else
                let n := default 0 (failed_attempts db_data !! account_number) + 1 in
                let db1 :=
                  set_failed_attempts
                    (<[account_number := n]> (failed_attempts db_data)) db_data in
                let attempts_remaining := 3 - n in
                if 3 <=? n then
                  (Failure 403 msg_locked_3_attempts,
                   Ledger (set_locked_accounts
                             (<[account_number := now]> (locked_accounts db1)) db1))
                else
                  (Failure 401 (msg_invalid_pin attempts_remaining), Ledger db1)
          end
    end.

(** ** /api/logout.  [data] is the request's JSON body and [save_data(data)]
    writes that body, not [db_data], to [DATA_FILE].  A body is given by its
    [token] and by what it holds under the five keys of the ledger:
    [Ledger d] when it carries them, [Foreign] when it carries none. *)
Record logout_body := LogoutBody {
  lb_token : string;
  lb_rest : document
}.

Definition logout (data : logout_body) (f : document) : reply * document :=
  match f with
  | Foreign => (ServerError, f)
  | Ledger db_data =>
      match session_tokens db_data !! lb_token data with
      | Some _ => (Success logged_out, lb_rest data)
      | None => (Success logged_out, f)
      end
  end.

(** ** /api/balance *)
Definition get_balance (token : string) (now : time) (f : document)
  : reply * document :=
  match f with
  | Foreign => (ServerError, f)
  | Ledger db_data =>
      match session_tokens db_data !! token with
      | None => (Failure 401 msg_session_expired, f)
      | Some session_data =>
          if s_expires_at session_data <? now then
            (Failure 401 msg_session_expired, f)
          else
            let account_number := s_account_number session_data in
            match accounts db_data !! account_number with
            | None => (ServerError, f)
            | Some account =>
                (Success (balance_info (balance account) (daily_limit account)
                            (daily_limit account - daily_withdrawn account)%float
                            (account_type account)),
                 Ledger (renew token now db_data))
            end
      end
  end.

(** ** /api/withdraw *)
Definition withdraw (token : string) (amount : option float) (note : string)
    (now : time) (txid : string) (f : document) : reply * document :=
  match amount with
  | None => (ServerError, f)
  | Some amount =>
  if PrimFloat.leb amount 0 then (Failure 400 msg_invalid_amount, f)
  else if PrimFloat.ltb 10000 amount then (Failure 400 msg_max_withdrawal, f)
  else
    match f with
    | Foreign => (ServerError, f)
    | Ledger db_data =>
        match session_tokens db_data !! token with
        | None => (Failure 401 msg_session_expired, f)
        | Some session_data =>
            let account_number := s_account_number session_data in
            match accounts db_data !! account_number with
            | None => (ServerError, f)
            | Some account =>
                if PrimFloat.ltb (daily_limit account) (daily_withdrawn account + amount) then
                  (Failure 400
                     (msg_daily_limit
                        (Some (daily_limit account - daily_withdrawn account)%float)),
                   f)
                else if PrimFloat.ltb (balance account) amount then
                  (Failure 400 msg_insufficient_funds, f)
                else
                  let account' :=
                    set_daily_withdrawn (daily_withdrawn account + amount)
                      (set_balance (balance account - amount) account) in
                  let transaction :=
                    Transaction txid withdrawal_t (PFloat amount) now
                                (balance account') (Single account_number)
                                (Some note) in
                  let db1 :=
                    set_accounts
                      (<[account_number := account']> (accounts db_data))
                      db_data in
                  let db2 :=
                    set_transactions (transactions db1 ++ [transaction]) db1 in
                  (Success (moved (balance account') txid now),
                   Ledger (renew token now db2))
            end
        end
    end
  end.

(** ** /api/deposit *)
Definition deposit (token : string) (amount : option float) (note : string)
    (now : time) (txid : string) (f : document) : reply * document :=
  match amount with
  | None => (ServerError, f)
  | Some amount =>
  if PrimFloat.leb amount 0 then (Failure 400 msg_invalid_amount, f)
  else if PrimFloat.ltb 50000 amount then (Failure 400 msg_max_deposit, f)
  else
    match f with
    | Foreign => (ServerError, f)
    | Ledger db_data =>
        match session_tokens db_data !! token with
        | None => (Failure 401 msg_session_expired, f)
        | Some session_data =>
            let account_number := s_account_number session_data in
            match accounts db_data !! account_number with
            | None => (ServerError, f)
            | Some account =>
                let account' := set_balance (balance account + amount) account in
                let transaction :=
                  Transaction txid deposit_t (PFloat amount) now
                              (balance account') (Single account_number)
                              (Some note) in
                let db1 :=
                  set_accounts
                    (<[account_number := account']> (accounts db_data))
                    db_data in
                let db2 :=
                  set_transactions (transactions db1 ++ [transaction]) db1 in
                (Success (moved (balance account') txid now),
                 Ledger (renew token now db2))
            end
        end
    end
  end.

(** ** /api/transfer *)
Definition transfer (token to_account : string) (amount : option float)
    (note : string) (now : time) (txid : string) (f : document)
  : reply * document :=
  match amount with
  | None => (ServerError, f)
  | Some amount =>
  if PrimFloat.leb amount 0 then (Failure 400 msg_invalid_amount, f)
  else if PrimFloat.ltb 10000 amount then (Failure 400 msg_max_transfer, f)
  else
    match f with
    | Foreign => (ServerError, f)
    | Ledger db_data =>
        match session_tokens db_data !! token with
        | None => (Failure 401 msg_session_expired, f)
        | Some session_data =>
            let from_account := s_account_number session_data in
            if String.eqb from_account to_account then
              (Failure 400 msg_same_account, f)
            else
              match accounts db_data !! to_account with
              | None => (Failure 404 msg_recipient_not_found, f)
              | Some recipient =>
                  match accounts db_data !! from_account with
                  | None => (ServerError, f)
                  | Some sender =>
                      if PrimFloat.ltb (balance sender) amount then
                        (Failure 400 msg_insufficient_funds, f)
                      else
                        let sender' :=
                          set_balance (balance sender - amount) sender in
                        let recipient' :=
                          set_balance (balance recipient + amount) recipient in
                        let transaction :=
                          Transaction txid transfer_t (PFloat amount) now
                                      (balance sender')
                                      (FromTo from_account to_account)
                                      (Some note) in
                        let db1 :=
                          set_accounts
                            (<[to_account := recipient']>
                               (<[from_account := sender']> (accounts db_data)))
                            db_data in
                        let db2 :=
                          set_transactions (transactions db1 ++ [transaction])
                                           db1 in
                        (Success (moved (balance sender') txid now),
                         Ledger (renew token now db2))
                  end
              end
        end
    end
  end.

(** ** /api/transactions *)

(** [t.get('account_number') == account_number or
     t.get('from_account') == account_number or
     t.get('to_account') == account_number] *)
Definition concerns (account_number : string) (t : transaction) : bool :=
  match t_ref t with
  | Single a => String.eqb a account_number
  | FromTo a b => String.eqb a account_number || String.eqb b account_number
  end.

(** [list.sort(key=timestamp, reverse=True)]: descending and stable. *)
Fixpoint insert_desc (x : transaction) (l : list transaction) : list transaction :=
  match l with
  | [] => [x]
  | y :: l' =>
      if t_timestamp x <? t_timestamp y then y :: insert_desc x l'
      else x :: y :: l'
  end.

Definition sort_desc (l : list transaction) : list transaction :=
  foldr insert_desc [] l.

(** The slice [l[:limit]] for an integer [limit]. *)
Definition slice_to (limit : Z) (l : list transaction) : list transaction :=
  if 0 <=? limit then take (Z.to_nat limit) l
  else take (Z.to_nat (Z.of_nat (length l) + limit)) l.

(** The stop of the slice [l[:limit]] for a JSON value [limit]: an int (a
    bool is one), or no stop for null.  [None] is the [TypeError] of any
    other value. *)
Definition slice_stop (limit : pval) : option (option Z) :=
  match limit with
  | PInt z => Some (Some z)
  | PBool true => Some (Some 1)
  | PBool false => Some (Some 0)
  | PNull => Some None
  | PFloat _ | PStr _ => None
  end.

Definition slice (stop : option Z) (l : list transaction) : list transaction :=
  match stop with
  | Some limit => slice_to limit l
  | None => l
  end.

(** [limit] is the field as sent, 10 when it is absent.  The slice is
    taken in the [return] statement, after [save_data]. *)
Definition get_transactions (token : string) (limit : pval) (now : time)
    (f : document) : reply * document :=
  match f with
  | Foreign => (ServerError, f)
  | Ledger db_data =>
      match session_tokens db_data !! token with
      | None => (Failure 401 msg_session_expired, f)
      | Some session_data =>
          let account_number := s_account_number session_data in
          let account_transactions :=
            sort_desc (filter (fun t => concerns account_number t = true)
                              (transactions db_data)) in
          let saved := Ledger (renew token now db_data) in
          match slice_stop limit with
          | None => (ServerError, saved)
          | Some stop =>
              (Success (history (slice stop account_transactions)), saved)
          end
      end
  end.

(** ** /api/change-pin *)
Definition change_pin (token current_pin new_pin salt : string) (f : document)
  : reply * document :=
  if bad_pin new_pin then (Failure 400 msg_pin_4_digits, f)
  else
    match f with
    | Foreign => (ServerError, f)
    | Ledger db_data =>
        match session_tokens db_data !! token with
        | None => (Failure 401 msg_session_expired, f)
        | Some session_data =>
            let account_number := s_account_number session_data in
            match accounts db_data !! account_number with
            | None => (ServerError, f)
            | Some account =>
                if negb (check_password_hash (pin_hash account) current_pin) then
                  (Failure 401 msg_current_pin_incorrect, f)
                else
                  let account' :=
                    set_pin_hash (generate_password_hash salt new_pin) account in
                  (Success pin_changed,
                   Ledger (set_accounts
                             (<[account_number := account']> (accounts db_data))
                             db_data))
            end
        end
    end.

(** ** /api/fast-cash.  [amount] is the stored preference as it is: the
    comparison with the balance is exact, and [daily_withdrawn + amount]
    converts an int to a float first. *)
Definition fast_cash (token : string) (now : time) (txid : string)
    (f : document) : reply * document :=
  match f with
  | Foreign => (ServerError, f)
  | Ledger db_data =>
      match session_tokens db_data !! token with
      | None => (Failure 401 msg_session_expired, f)
      | Some session_data =>
          let account_number := s_account_number session_data in
          match accounts db_data !! account_number with
          | None => (ServerError, f)
          | Some account =>
              match preferences account !! "fast_cash_amount" with
              | None => (ServerError, f)
              | Some v =>
                  match as_number v with
                  | None => (ServerError, f)
                  | Some amount =>
                      if number_gtb_float amount (balance account) then
                        (Failure 400 msg_insufficient_funds, f)
                      else
                        match to_float amount with
                        | None => (ServerError, f)
                        | Some x =>
                            if PrimFloat.ltb (daily_limit account)
                                 (daily_withdrawn account + x) then
                              (Failure 400 (msg_daily_limit None), f)
                            else
                              let account' :=
                                set_daily_withdrawn
                                  (daily_withdrawn account + x)
                                  (set_balance (balance account - x) account) in
                              let transaction :=
                                Transaction txid fast_cash_t v now
                                            (balance account')
                                            (Single account_number) None in
                              let db1 :=
                                set_accounts
                                  (<[account_number := account']>
                                     (accounts db_data))
                                  db_data in
                              let db2 :=
                                set_transactions
                                  (transactions db1 ++ [transaction]) db1 in
                              (Success (fast_cashed v (balance account') txid),
                               Ledger (renew token now db2))
                        end
                  end
              end
          end
      end
  end.

(** ** /api/update-preferences.  [dict.update]: the supplied keys win. *)
Definition update_preferences (token : string) (new_prefs : gmap string pval)
    (f : document) : reply * document :=
  match f with
  | Foreign => (ServerError, f)
  | Ledger db_data =>
      match session_tokens db_data !! token with
      | None => (Failure 401 msg_session_expired, f)
      | Some session_data =>
          let account_number := s_account_number session_data in
          match accounts db_data !! account_number with
          | None => (ServerError, f)
          | Some account =>
              let account' :=
                set_preferences (new_prefs ∪ preferences account) account in
              (Success (prefs (preferences account')),
               Ledger (set_accounts
                         (<[account_number := account']> (accounts db_data))
                         db_data))
          end
      end
  end.

(** ** /api/account-info *)
Definition get_account_info (token : string) (f : document) : reply * document :=
  match f with
  | Foreign => (ServerError, f)
  | Ledger db_data =>
      match session_tokens db_data !! token with
      | None => (Failure 401 msg_session_expired, f)
      | Some session_data =>
          let account_number := s_account_number session_data in
          match accounts db_data !! account_number with
          | None => (ServerError, f)
          | Some account =>
              (Success (info account_number (name account) (account_type account)
                          (balance account) (daily_limit account)
                          (created_at account)),
               f)
          end
      end
  end.

End Handlers.

(** ** Requests and their dispatch *)

Inductive request :=
| ReqRegister (name pin : string) (initial_deposit : option float)
              (draws : list string) (salt txid : string)
| ReqLogin (account_number pin session_token : string)
| ReqLogout (data : logout_body)
| ReqBalance (token : string)
| ReqWithdraw (token : string) (amount : option float) (note txid : string)
| ReqDeposit (token : string) (amount : option float) (note txid : string)
| ReqTransfer (token to_account : string) (amount : option float)
              (note txid : string)
| ReqTransactions (token : string) (limit : pval)
| ReqChangePin (token current_pin new_pin salt : string)
| ReqFastCash (token txid : string)
| ReqUpdatePreferences (token : string) (new_prefs : gmap string pval)
| ReqAccountInfo (token : string).

Definition handle `{Hasher} (r : request) (now : time) (f : document)
  : option (reply * document) :=
  match r with
  | ReqRegister name pin initial_deposit draws salt txid =>
      register name pin initial_deposit now draws salt txid f
  | ReqLogin account_number pin session_token =>
      Some (login account_number pin now session_token f)
  | ReqLogout data => Some (logout data f)
  | ReqBalance token => Some (get_balance token now f)
  | ReqWithdraw token amount note txid =>
      Some (withdraw token amount note now txid f)
  | ReqDeposit token amount note txid =>
      Some (deposit token amount note now txid f)
  | ReqTransfer token to_account amount note txid =>
      Some (transfer token to_account amount note now txid f)
  | ReqTransactions token limit => Some (get_transactions token limit now f)
  | ReqChangePin token current_pin new_pin salt =>
      Some (change_pin token current_pin new_pin salt f)
  | ReqFastCash token txid => Some (fast_cash token now txid f)
  | ReqUpdatePreferences token new_prefs =>
      Some (update_preferences token new_prefs f)
  | ReqAccountInfo token => Some (get_account_info token f)
  end.

Definition is_logout (r : request) : bool :=
  match r with ReqLogout _ => true | _ => false end.

(** ** The monetary invariant *)

(** [balance >= 0] and [daily_withdrawn <= daily_limit], as Python evaluates
    them: both are false of NaN. *)
Definition account_ok (a : account) : bool :=
  PrimFloat.leb 0 (balance a) &&
  PrimFloat.leb (daily_withdrawn a) (daily_limit a).

Definition document_ok (f : document) : Prop :=
  match f with
  | Ledger d => map_Forall (fun _ a => account_ok a = true) (accounts d)
  | Foreign => True
  end.

(** ** Concrete collaborators and ledgers for the examples *)

(** A hasher that keeps the PIN in clear and ignores the salt. *)
Definition clear_hasher : Hasher :=
  {| generate_password_hash := fun _ pin => pin;
     check_password_hash := fun digest pin => String.eqb digest pin |}.

(** The document after a request, as the handlers leave it. *)
Definition run (r : request) (now : time) (f : document) : document :=
  match @handle clear_hasher r now f with
  | Some (_, f') => f'
  | None => f
  end.

Definition ledger_of (f : document) : db :=
  match f with
  | Ledger d => d
  | Foreign => empty_db
  end.

Definition alice : account :=
  Account "1234" 100%float "Alice" "Savings" 5000%float 0%float 0 0
          default_preferences.

Definition bob : account :=
  Account "4321" 10%float "Bob" "Savings" 5000%float 0%float 0 0
          default_preferences.

(** Alice registers with [x] and Bob with [y], and Alice logs in at time 0:
    TOKEN is Alice's session. *)
Definition two_accounts (x y : float) : document :=
  run (ReqLogin "111111" "1234" "TOKEN") 0
    (run (ReqRegister "Bob" "4321" (Some y) ["222222"] "salt" "TX0B") 0
       (run (ReqRegister "Alice" "1234" (Some x) ["111111"] "salt" "TX0A") 0
          (Ledger empty_db))).

(** Alice registers with 100 and Bob with 10: the accounts are [alice] and
    [bob]. *)
Definition bank_document : document := two_accounts 100 10.

Definition bank : db := ledger_of bank_document.

(** Alice registers with 0.3 and Bob with 0.7. *)
Definition rounding_bank : db := ledger_of (two_accounts 0.3 0.7).

(** Alice registers with 1e17 and Bob with 10. *)
Definition vast_bank : db := ledger_of (two_accounts 1e17 10).

(** One day after time 0. *)
Definition next_day : time := 86400 * 1000000.

(** Alice registers with 13000 on day 0, logs in five minutes before
    midnight and withdraws 4000 one minute later: she holds 9000 and has
    withdrawn 4000 of her 5000, and her session runs until 26 minutes past
    midnight. *)
Definition heavy_bank_document : document :=
  run (ReqWithdraw "TOKEN" (Some 4000%float) "" "TX1") (next_day - minutes 4)
    (run (ReqLogin "111111" "1234" "TOKEN") (next_day - minutes 5)
       (run (ReqRegister "Bob" "4321" (Some 10%float) ["222222"] "salt" "TX0B") 0
          (run (ReqRegister "Alice" "1234" (Some 13000%float) ["111111"] "salt"
                            "TX0A") 0
             (Ledger empty_db)))).

Definition heavy_bank : db := ledger_of heavy_bank_document.

Definition heavy_alice : account :=
  Account "1234" 9000%float "Alice" "Savings" 5000%float 4000%float 0 0
          default_preferences.

Definition late_session : session :=
  Session "111111" (next_day - minutes 5) (next_day + minutes 26).

(** One minute into the next day. *)
Definition after_midnight : time := next_day + minutes 1.

(** A logout body that carries, besides the token, a ledger in which Bob
    owes 500. *)
Definition indebted_bob : account :=
  Account "4321" (-500)%float "Bob" "Savings" 5000%float 0%float 0 0
          default_preferences.

Definition crafted_body : logout_body :=
  LogoutBody "TOKEN" (Ledger (Db (<["222222" := indebted_bob]> ∅) [] ∅ ∅ ∅)).

(** The body a client sends: the token alone. *)
Definition plain_body : logout_body := LogoutBody "TOKEN" Foreign.


(** Alice of [bank] has set her fast-cash amount to -40. *)
Definition generous_bank_document : document :=
  run (ReqUpdatePreferences "TOKEN" {["fast_cash_amount" := PInt (-40)]}) 1
      bank_document.

Definition generous_bank : db := ledger_of generous_bank_document.

Definition generous_alice : account :=
  Account "1234" 100%float "Alice" "Savings" 5000%float 0%float 0 0
          (<["fast_cash_amount" := PInt (-40)]> default_preferences).



(** Bob has registered with 10 and logged in, through the handlers. *)
Definition bob_registered : document :=
  match @register clear_hasher "Bob" "4321" (Some 10%float) 0 ["222222"] "salt"
                  "TX0" (Ledger empty_db) with
  | Some (_, f) => f
  | None => Foreign
  end.

Definition bob_logged_in : document :=
  (@login clear_hasher "222222" "4321" 1 "TOKEN" bob_registered).2.

(** ** Observations on a document *)

Definition session_of (token : string) (f : document) : option session :=
  match f with
  | Ledger d => session_tokens d !! token
  | Foreign => None
  end.

Definition account_of (account_number : string) (f : document) : option account :=
  match f with
  | Ledger d => accounts d !! account_number
  | Foreign => None
  end.

(** The ledger [d] with the expiry of the session under [token] set to [e]. *)
Definition with_expiry (token : string) (e : time) (d : db) : db :=
  set_session_tokens (alter (set_expires_at e) token (session_tokens d)) d.

Definition is_balance (r : request) : bool :=
  match r with ReqBalance _ => true | _ => false end.

(** The token of an authenticated request. *)
Definition request_token (r : request) : option string :=
  match r with
  | ReqRegister _ _ _ _ _ _ | ReqLogin _ _ _ | ReqLogout _ => None
  | ReqBalance token | ReqWithdraw token _ _ _ | ReqDeposit token _ _ _
  | ReqTransfer token _ _ _ _ | ReqTransactions token _
  | ReqChangePin token _ _ _ | ReqFastCash token _
  | ReqUpdatePreferences token _ | ReqAccountInfo token => Some token
  end.

(** The handlers that assign [expires_at] before [save_data]. *)
Definition renews (r : request) : bool :=
  match r with
  | ReqBalance _ | ReqWithdraw _ _ _ _ | ReqDeposit _ _ _ _
  | ReqTransfer _ _ _ _ _ | ReqTransactions _ _ | ReqFastCash _ _ => true
  | _ => false
  end.

(** The documents the handlers can build from the empty ledger of
    [load_data]. *)
Inductive reachable `{Hasher} : document -> Prop :=
| reachable_empty : reachable (Ledger empty_db)
| reachable_step r now f rep f' :
    reachable f -> handle r now f = Some (rep, f') -> reachable f'.

(** The requests that move money. *)
Definition is_money_request (r : request) : bool :=
  match r with
  | ReqWithdraw _ _ _ _ | ReqDeposit _ _ _ _ | ReqTransfer _ _ _ _ _
  | ReqFastCash _ _ => true
  | _ => false
  end.

(** ** Runs of requests, and what a ledger built by the handlers obeys *)

(** The requests [rs], each with the clock reading it is served at, handled
    one after the other.  [None]: some [register] is still drawing. *)
Fixpoint exec `{Hasher} (rs : list (request * time)) (f : document)
  : option document :=
  match rs with
  | [] => Some f
  | (r, now) :: rest =>
      match handle r now f with
      | Some (_, f') => exec rest f'
      | None => None
      end
  end.

Definition no_logout (rs : list (request * time)) : bool :=
  forallb (fun p => negb (is_logout p.1)) rs.

Definition is_login (r : request) : bool :=
  match r with ReqLogin _ _ _ => true | _ => false end.

(** A request for the history whose limit cannot bound a slice. *)
Definition bad_limit (r : request) : bool :=
  match r with
  | ReqTransactions _ limit =>
      match slice_stop limit with None => true | Some _ => false end
  | _ => false
  end.





(** Descending timestamps. *)
Definition newer_or_equal (x y : transaction) : Prop :=
  t_timestamp y <= t_timestamp x.





(** Alice of [heavy_bank] has set her fast-cash amount to 9500. *)
Definition eager_bank : db :=
  ledger_of
    (run (ReqUpdatePreferences "TOKEN" {["fast_cash_amount" := PInt 9500]})
         (next_day - minutes 3) (Ledger heavy_bank)).

Definition eager_alice : account :=
  set_preferences (<["fast_cash_amount" := PInt 9500]> default_preferences)
                  heavy_alice.

(** Alice of [heavy_bank] has set her fast-cash amount to 2000. *)
Definition keen_bank : db :=
  ledger_of
    (run (ReqUpdatePreferences "TOKEN" {["fast_cash_amount" := PInt 2000]})
         (next_day - minutes 3) (Ledger heavy_bank)).

Definition keen_alice : account :=
  set_preferences (<["fast_cash_amount" := PInt 2000]> default_preferences)
                  heavy_alice.

(** The exact value of a finite float [x], as the integer [x * 2^1074]:
    every finite float is a multiple of 2^-1074. *)
Definition scaled (x : float) : option Z :=
  match Prim2SF x with
  | S754_zero _ => Some 0
  | S754_finite negative m e =>
      Some ((if negative then Z.neg m else Z.pos m) * 2 ^ (e + 1074))
  | S754_infinity _ | S754_nan => None
  end.

(** [x - y = d] and [x + y = x' + y'] in exact arithmetic, for finite
    floats. *)
Definition differ_by (x y d : float) : bool :=
  match scaled x, scaled y, scaled d with
  | Some a, Some b, Some c => a - b =? c
  | _, _, _ => false
  end.

Definition same_sum (x y x' y' : float) : bool :=
  match scaled x, scaled y, scaled x', scaled y' with
  | Some a, Some b, Some a', Some b' => a + b =? a' + b'
  | _, _, _, _ => false
  end.

(** Alice of [bank] deposits 5 at time 5, withdraws 20 at time 7 and
    transfers 50 to Bob at time 9. *)
Definition busy_bank : db :=
  ledger_of
    (run (ReqTransfer "TOKEN" "222222" (Some 50%float) "" "TX3") 9
       (run (ReqWithdraw "TOKEN" (Some 20%float) "" "TX2") 7
          (run (ReqDeposit "TOKEN" (Some 5%float) "" "TX1") 5 bank_document))).

(** The account 111111 has failed three logins, the third at time 3. *)
Definition locked_bank : db :=
  ledger_of
    (run (ReqLogin "111111" "0002" "K3") 3
       (run (ReqLogin "111111" "0001" "K2") 2
          (run (ReqLogin "111111" "0000" "K1") 1 bank_document))).

(** Four Arabic-Indic digits, U+0661 to U+0664, and a name of one letter,
    U+00E9, each in UTF-8. *)
Definition arabic_pin : string :=
  string_of_list_ascii
    (map ascii_of_nat [217; 161; 217; 162; 217; 163; 217; 164]%nat).

Definition one_letter_name : string :=
  string_of_list_ascii (map ascii_of_nat [195; 169]%nat).

(** * Properties *)

(** ** Failed money requests write nothing *)

Section Properties.

Context `{Hasher}.

Lemma withdraw_failure token amount note now txid f :
  is_success (withdraw token amount note now txid f).1 = false ->
  (withdraw token amount note now txid f).2 = f.
Proof.
  unfold withdraw. repeat case_match; simpl; intros; congruence.
Qed.

Lemma deposit_failure token amount note now txid f :
  is_success (deposit token amount note now txid f).1 = false ->
  (deposit token amount note now txid f).2 = f.
Proof.
  unfold deposit. repeat case_match; simpl; intros; congruence.
Qed.

Lemma transfer_failure token to_account amount note now txid f :
  is_success (transfer token to_account amount note now txid f).1 = false ->
  (transfer token to_account amount note now txid f).2 = f.
Proof.
  unfold transfer. repeat case_match; simpl; intros; congruence.
Qed.

Lemma fast_cash_failure token now txid f :
  is_success (fast_cash token now txid f).1 = false ->
  (fast_cash token now txid f).2 = f.
Proof.
  unfold fast_cash. repeat case_match; simpl; intros; congruence.
Qed.

(** C6.  A withdraw, deposit, transfer or fast-cash request that does not
    succeed (any error reply, or an uncaught exception) leaves [DATA_FILE]
    exactly as it was: balances, daily_withdrawn, transaction log and
    sessions are those of before the call. *)
Theorem money_request_error_writes_nothing r now f rep f' :
  is_money_request r = true ->
  handle r now f = Some (rep, f') ->
  is_success rep = false ->
  f' = f.
Proof.
  intros Hr Hh Hrep.
  destruct r; try discriminate Hr; simpl in Hh; injection Hh as Hh.
  - pose proof (withdraw_failure token amount note now txid f) as W.
    rewrite Hh in W. exact (W Hrep).
  - pose proof (deposit_failure token amount note now txid f) as W.
    rewrite Hh in W. exact (W Hrep).
  - pose proof (transfer_failure token to_account amount note now txid f) as W.
    rewrite Hh in W. exact (W Hrep).
  - pose proof (fast_cash_failure token now txid f) as W.
    rewrite Hh in W. exact (W Hrep).
Qed.

(** ** Transfers *)

(** C5, amended.  A transfer that succeeds has distinct sender and
    recipient, stores for the sender the float difference of balance and
    amount and for the recipient the float sum of balance and amount, leaves
    every other account unchanged, and appends one transaction that carries
    the amount, both account numbers and the sender's resulting balance. *)
Theorem transfer_effect token to_account amount note now txid f p f' :
  transfer token to_account (Some amount) note now txid f = (Success p, f') ->
  exists d d' s sender recipient sender' recipient' t,
    f = Ledger d /\ f' = Ledger d' /\
    session_tokens d !! token = Some s /\
    s_account_number s <> to_account /\
    accounts d !! s_account_number s = Some sender /\
    accounts d !! to_account = Some recipient /\
    accounts d' !! s_account_number s = Some sender' /\
    accounts d' !! to_account = Some recipient' /\
    sender' = set_balance (balance sender - amount)%float sender /\
    recipient' = set_balance (balance recipient + amount)%float recipient /\
    (forall k, k <> s_account_number s -> k <> to_account ->
               accounts d' !! k = accounts d !! k) /\
    transactions d' = transactions d ++ [t] /\
    t_type t = transfer_t /\
    t_amount t = PFloat amount /\
    t_ref t = FromTo (s_account_number s) to_account /\
    t_balance_after t = balance sender' /\
    p = moved (balance sender') (t_id t) (t_timestamp t).
Proof.
  unfold transfer. intros Ht.
  repeat case_match; simplify_eq.
  match goal with E : String.eqb _ _ = false |- _ => apply String.eqb_neq in E end.
  eexists _, _, _, _, _, _, _, _.
  split; [reflexivity|]. split; [reflexivity|].
  split; [eassumption|]. split; [assumption|].
  split; [eassumption|]. split; [eassumption|]. simpl.
  split; [rewrite lookup_insert_ne by congruence; apply lookup_insert_eq|].
  split; [apply lookup_insert_eq|]. simpl.
  split; [reflexivity|]. split; [reflexivity|].
  split; [intros k Hk1 Hk2; rewrite !lookup_insert_ne by congruence; reflexivity|].
  repeat split; reflexivity.
Qed.

End Properties.

Lemma money_request_error_writes_nothing_witness :
  (withdraw "TOKEN" (Some 2000%float) "" after_midnight "TX1" (Ledger heavy_bank)).1
    = Failure 400 (msg_daily_limit (Some 1000%float)) /\
  (withdraw "TOKEN" (Some 2000%float) "" after_midnight "TX1" (Ledger heavy_bank)).2
    = Ledger heavy_bank.
Proof.
  split; [vm_compute; reflexivity|].
  apply (@money_request_error_writes_nothing clear_hasher
           (ReqWithdraw "TOKEN" (Some 2000%float) "" "TX1") after_midnight
           (Ledger heavy_bank)
           (withdraw "TOKEN" (Some 2000%float) "" after_midnight "TX1"
                     (Ledger heavy_bank)).1
           (withdraw "TOKEN" (Some 2000%float) "" after_midnight "TX1"
                     (Ledger heavy_bank)).2);
    [reflexivity | reflexivity | vm_compute; reflexivity].
Defined.

(** C5, as stated, fails: the balances are floats.  Alice holds 0.3 and Bob
    0.7.  A transfer of 0.1 succeeds and leaves Alice 0.19999999999999998
    and Bob 0.7999999999999999: Bob is not credited exactly 0.1, and the
    sum of the two balances is not what it was.  And when Alice holds 1e17
    and Bob 10, a transfer of 1 succeeds, credits Bob 1 and debits Alice
    nothing. *)
Lemma transfer_not_exact :
  balance <$> accounts rounding_bank !! "111111" = Some 0.3%float /\
  balance <$> accounts rounding_bank !! "222222" = Some 0.7%float /\
  (transfer "TOKEN" "222222" (Some 0.1%float) "" 5 "TX1" (Ledger rounding_bank)).1
    = Success (moved 0.19999999999999998%float "TX1" 5) /\
  balance <$> account_of "111111"
                (transfer "TOKEN" "222222" (Some 0.1%float) "" 5 "TX1"
                          (Ledger rounding_bank)).2
    = Some 0.19999999999999998%float /\
  balance <$> account_of "222222"
                (transfer "TOKEN" "222222" (Some 0.1%float) "" 5 "TX1"
                          (Ledger rounding_bank)).2
    = Some 0.7999999999999999%float /\
  differ_by 0.3 0.19999999999999998 0.1 = true /\
  differ_by 0.7999999999999999 0.7 0.1 = false /\
  same_sum 0.3 0.7 0.19999999999999998 0.7999999999999999 = false /\
  balance <$> accounts vast_bank !! "111111" = Some 1e17%float /\
  balance <$> accounts vast_bank !! "222222" = Some 10%float /\
  (transfer "TOKEN" "222222" (Some 1%float) "" 5 "TX1" (Ledger vast_bank)).1
    = Success (moved 1e17%float "TX1" 5) /\
  balance <$> account_of "111111"
                (transfer "TOKEN" "222222" (Some 1%float) "" 5 "TX1"
                          (Ledger vast_bank)).2
    = Some 1e17%float /\
  balance <$> account_of "222222"
                (transfer "TOKEN" "222222" (Some 1%float) "" 5 "TX1"
                          (Ledger vast_bank)).2
    = Some 11%float /\
  same_sum 1e17 10 1e17 11 = false.
Proof. repeat split; vm_compute; reflexivity. Qed.

Lemma transfer_effect_witness :
  exists d' sender' recipient',
    (transfer "TOKEN" "222222" (Some 50%float) "" 5 "TX1" (Ledger bank)).2
      = Ledger d' /\
    accounts d' !! "111111" = Some sender' /\
    accounts d' !! "222222" = Some recipient' /\
    balance sender' = 50%float /\ balance recipient' = 60%float.
Proof.
  destruct (transfer_effect "TOKEN" "222222" 50%float "" 5 "TX1"
              (Ledger bank) (moved 50%float "TX1" 5)
              (transfer "TOKEN" "222222" (Some 50%float) "" 5 "TX1"
                        (Ledger bank)).2)
    as (d & d' & s & a & b & a' & b' & t & Hd & Hd' & Hs & _ & Ha & Hb & Ha'
        & Hb' & Ea & Eb & _); [vm_compute; reflexivity|].
  injection Hd as <-.
  vm_compute in Hs. injection Hs as <-.
  vm_compute in Ha. injection Ha as <-.
  vm_compute in Hb. injection Hb as <-.
  exists d', a', b'.
  split; [exact Hd'|]. split; [exact Ha'|]. split; [exact Hb'|].
  rewrite Ea, Eb. split; vm_compute; reflexivity.
Defined.

(** ** The daily limit: withdraw and fast-cash against transfer *)

Lemma string_eqb_false (a b : string) : a <> b -> String.eqb a b = false.
Proof. intros Hne. apply String.eqb_neq. exact Hne. Qed.

Lemma transfer_ignores_daily_withdrawn
    token to_account amount note now txid d s sender recipient :
  session_tokens d !! token = Some s ->
  s_account_number s <> to_account ->
  accounts d !! s_account_number s = Some sender ->
  accounts d !! to_account = Some recipient ->
  PrimFloat.leb amount 0 = false ->
  PrimFloat.ltb 10000 amount = false ->
  PrimFloat.ltb (balance sender) amount = false ->
  exists p d' sender' recipient',
    transfer token to_account (Some amount) note now txid (Ledger d)
      = (Success p, Ledger d') /\
    accounts d' !! s_account_number s = Some sender' /\
    accounts d' !! to_account = Some recipient' /\
    daily_withdrawn sender' = daily_withdrawn sender /\
    daily_withdrawn recipient' = daily_withdrawn recipient.
Proof.
  intros Hs Hne Ha Hb Hpos Hcap Hfunds.
  unfold transfer.
  rewrite Hpos, Hcap, Hs, (string_eqb_false _ _ Hne), Hb, Ha, Hfunds.
  eexists _, _, _, _. split; [reflexivity|]. simpl.
  split; [rewrite lookup_insert_ne by congruence; apply lookup_insert_eq|].
  split; [apply lookup_insert_eq|]. split; reflexivity.
Qed.

Lemma withdraw_enforces_daily_limit token amount note now txid d s a :
  session_tokens d !! token = Some s ->
  accounts d !! s_account_number s = Some a ->
  PrimFloat.ltb (daily_limit a) (daily_withdrawn a + amount) = true ->
  is_success (withdraw token (Some amount) note now txid (Ledger d)).1 = false /\
  (withdraw token (Some amount) note now txid (Ledger d)).2 = Ledger d /\
  (PrimFloat.leb amount 0 = false -> PrimFloat.ltb 10000 amount = false ->
   (withdraw token (Some amount) note now txid (Ledger d)).1
     = Failure 400
         (msg_daily_limit (Some (daily_limit a - daily_withdrawn a)%float))).
Proof.
  intros Hs Ha Hover. unfold withdraw. rewrite Hs, Ha, Hover.
  split; [|split].
  - repeat case_match; reflexivity.
  - repeat case_match; reflexivity.
  - intros -> ->. reflexivity.
Qed.

Lemma withdraw_accepts token amount note now txid d s a :
  session_tokens d !! token = Some s ->
  accounts d !! s_account_number s = Some a ->
  PrimFloat.leb amount 0 = false ->
  PrimFloat.ltb 10000 amount = false ->
  PrimFloat.ltb (daily_limit a) (daily_withdrawn a + amount) = false ->
  PrimFloat.ltb (balance a) amount = false ->
  exists d' a',
    withdraw token (Some amount) note now txid (Ledger d)
      = (Success (moved (balance a') txid now), Ledger d') /\
    accounts d' !! s_account_number s = Some a' /\
    balance a' = (balance a - amount)%float /\
    daily_withdrawn a' = (daily_withdrawn a + amount)%float.
Proof.
  intros Hs Ha Hpos Hcap Hlim Hfunds. unfold withdraw.
  rewrite Hpos, Hcap, Hs, Ha, Hlim, Hfunds.
  eexists _, _. split; [reflexivity|]. simpl.
  split; [apply lookup_insert_eq|]. split; reflexivity.
Qed.

Lemma withdraw_counts_towards_limit token amount note now txid d s a p f' :
  session_tokens d !! token = Some s ->
  accounts d !! s_account_number s = Some a ->
  withdraw token amount note now txid (Ledger d) = (Success p, f') ->
  exists x d' a',
    amount = Some x /\
    f' = Ledger d' /\ accounts d' !! s_account_number s = Some a' /\
    daily_withdrawn a' = (daily_withdrawn a + x)%float /\
    last_reset a' = last_reset a /\
    PrimFloat.ltb (daily_limit a') (daily_withdrawn a') = false.
Proof.
  intros Hs Ha. unfold withdraw. intros Hw.
  destruct amount as [x|]; [|discriminate].
  rewrite Hs, Ha in Hw.
  repeat case_match; simplify_eq.
  eexists _, _, _. split; [reflexivity|]. split; [reflexivity|]. simpl.
  split; [apply lookup_insert_eq|]. simpl.
  repeat split; try reflexivity; assumption.
Qed.

Lemma fast_cash_enforces_daily_limit token now txid d s a v n x :
  session_tokens d !! token = Some s ->
  accounts d !! s_account_number s = Some a ->
  preferences a !! "fast_cash_amount" = Some v ->
  as_number v = Some n ->
  to_float n = Some x ->
  PrimFloat.ltb (daily_limit a) (daily_withdrawn a + x) = true ->
  is_success (fast_cash token now txid (Ledger d)).1 = false /\
  (fast_cash token now txid (Ledger d)).2 = Ledger d /\
  (number_gtb_float n (balance a) = false ->
   (fast_cash token now txid (Ledger d)).1 = Failure 400 (msg_daily_limit None)).
Proof.
  intros Hs Ha Hv Hn Hx Hover. unfold fast_cash.
  rewrite Hs, Ha, Hv, Hn, Hx, Hover.
  split; [|split].
  - case_match; reflexivity.
  - case_match; reflexivity.
  - intros ->. reflexivity.
Qed.

Lemma fast_cash_accepts token now txid d s a v n x :
  session_tokens d !! token = Some s ->
  accounts d !! s_account_number s = Some a ->
  preferences a !! "fast_cash_amount" = Some v ->
  as_number v = Some n ->
  number_gtb_float n (balance a) = false ->
  to_float n = Some x ->
  PrimFloat.ltb (daily_limit a) (daily_withdrawn a + x) = false ->
  exists d' a' t,
    fast_cash token now txid (Ledger d)
      = (Success (fast_cashed v (balance a') txid), Ledger d') /\
    accounts d' !! s_account_number s = Some a' /\
    balance a' = (balance a - x)%float /\
    daily_withdrawn a' = (daily_withdrawn a + x)%float /\
    transactions d' = transactions d ++ [t] /\
    t_type t = fast_cash_t /\
    t_amount t = v /\
    t_balance_after t = balance a'.
Proof.
  intros Hs Ha Hv Hn Hfunds Hx Hlim. unfold fast_cash.
  rewrite Hs, Ha, Hv, Hn, Hfunds, Hx, Hlim.
  eexists _, _, _. split; [reflexivity|]. simpl.
  split; [apply lookup_insert_eq|]. simpl.
  repeat split; reflexivity.
Qed.

Lemma fast_cash_counts_towards_limit token now txid d s a p f' :
  session_tokens d !! token = Some s ->
  accounts d !! s_account_number s = Some a ->
  fast_cash token now txid (Ledger d) = (Success p, f') ->
  exists d' a' v n x,
    preferences a !! "fast_cash_amount" = Some v /\
    as_number v = Some n /\
    to_float n = Some x /\
    f' = Ledger d' /\ accounts d' !! s_account_number s = Some a' /\
    daily_withdrawn a' = (daily_withdrawn a + x)%float /\
    last_reset a' = last_reset a /\
    PrimFloat.ltb (daily_limit a') (daily_withdrawn a') = false.
Proof.
  intros Hs Ha. unfold fast_cash. rewrite Hs, Ha. intros Hw.
  repeat case_match; simplify_eq.
  eexists _, _, _, _, _. split; [reflexivity|]. split; [eassumption|].
  split; [eassumption|]. split; [reflexivity|]. simpl.
  split; [apply lookup_insert_eq|]. simpl.
  repeat split; try reflexivity; assumption.
Qed.

(** C8, as stated, fails in its last clause: withdraw and fast-cash add the
    amount to daily_withdrawn, which need not increase it.  Alice of
    [generous_bank] has withdrawn 0 and configured a fast-cash amount of
    -40: fast-cash succeeds and leaves daily_withdrawn at -40.  Alice of
    [heavy_bank] has withdrawn 4000: her withdrawal of 1e-20 succeeds and
    leaves daily_withdrawn at 4000. *)
Lemma daily_withdrawn_not_increased :
  daily_withdrawn <$> accounts generous_bank !! "111111" = Some 0%float /\
  preferences <$> accounts generous_bank !! "111111"
    = Some (<["fast_cash_amount" := PInt (-40)]> default_preferences) /\
  (fast_cash "TOKEN" 5 "TX1" (Ledger generous_bank)).1
    = Success (fast_cashed (PInt (-40)) 140%float "TX1") /\
  daily_withdrawn <$>
    account_of "111111" (fast_cash "TOKEN" 5 "TX1" (Ledger generous_bank)).2
    = Some (-40)%float /\
  PrimFloat.ltb (-40) 0 = true /\
  daily_withdrawn <$> accounts heavy_bank !! "111111" = Some 4000%float /\
  (withdraw "TOKEN" (Some 1e-20%float) "" after_midnight "TX1"
            (Ledger heavy_bank)).1
    = Success (moved 9000%float "TX1" after_midnight) /\
  daily_withdrawn <$>
    account_of "111111"
      (withdraw "TOKEN" (Some 1e-20%float) "" after_midnight "TX1"
                (Ledger heavy_bank)).2
    = Some 4000%float.
Proof. repeat split; vm_compute; reflexivity. Qed.

(** C8, amended.  The daily limit is not applied to transfers: a transfer
    of an amount within the range checks from a sender with enough balance
    succeeds whatever the sender has withdrawn today, so also when
    daily_withdrawn + amount exceeds daily_limit, and it leaves
    daily_withdrawn of sender and recipient as they were.  Withdraw and
    fast-cash refuse, writing nothing, when the float sum daily_withdrawn +
    amount exceeds daily_limit; otherwise, when their other checks pass,
    they succeed and store that sum as daily_withdrawn; and whenever they
    succeed the stored daily_withdrawn is that sum and does not exceed
    daily_limit. *)
Theorem daily_limit_asymmetry :
  (forall token to_account amount note now txid d s sender recipient,
      session_tokens d !! token = Some s ->
      s_account_number s <> to_account ->
      accounts d !! s_account_number s = Some sender ->
      accounts d !! to_account = Some recipient ->
      PrimFloat.leb amount 0 = false ->
      PrimFloat.ltb 10000 amount = false ->
      PrimFloat.ltb (balance sender) amount = false ->
      exists p d' sender' recipient',
        transfer token to_account (Some amount) note now txid (Ledger d)
          = (Success p, Ledger d') /\
        accounts d' !! s_account_number s = Some sender' /\
        accounts d' !! to_account = Some recipient' /\
        daily_withdrawn sender' = daily_withdrawn sender /\
        daily_withdrawn recipient' = daily_withdrawn recipient) /\
  (forall token amount note now txid d s a,
      session_tokens d !! token = Some s ->
      accounts d !! s_account_number s = Some a ->
      PrimFloat.ltb (daily_limit a) (daily_withdrawn a + amount) = true ->
      is_success (withdraw token (Some amount) note now txid (Ledger d)).1
        = false /\
      (withdraw token (Some amount) note now txid (Ledger d)).2 = Ledger d) /\
  (forall token amount note now txid d s a,
      session_tokens d !! token = Some s ->
      accounts d !! s_account_number s = Some a ->
      PrimFloat.leb amount 0 = false ->
      PrimFloat.ltb 10000 amount = false ->
      PrimFloat.ltb (daily_limit a) (daily_withdrawn a + amount) = false ->
      PrimFloat.ltb (balance a) amount = false ->
      exists d' a',
        withdraw token (Some amount) note now txid (Ledger d)
          = (Success (moved (balance a') txid now), Ledger d') /\
        accounts d' !! s_account_number s = Some a' /\
        daily_withdrawn a' = (daily_withdrawn a + amount)%float) /\
  (forall token amount note now txid d s a p f',
      session_tokens d !! token = Some s ->
      accounts d !! s_account_number s = Some a ->
      withdraw token amount note now txid (Ledger d) = (Success p, f') ->
      exists x d' a',
        amount = Some x /\
        f' = Ledger d' /\ accounts d' !! s_account_number s = Some a' /\
        daily_withdrawn a' = (daily_withdrawn a + x)%float /\
        PrimFloat.ltb (daily_limit a') (daily_withdrawn a') = false) /\
  (forall token now txid d s a v n x,
      session_tokens d !! token = Some s ->
      accounts d !! s_account_number s = Some a ->
      preferences a !! "fast_cash_amount" = Some v ->
      as_number v = Some n ->
      to_float n = Some x ->
      PrimFloat.ltb (daily_limit a) (daily_withdrawn a + x) = true ->
      is_success (fast_cash token now txid (Ledger d)).1 = false /\
      (fast_cash token now txid (Ledger d)).2 = Ledger d) /\
  (forall token now txid d s a v n x,
      session_tokens d !! token = Some s ->
      accounts d !! s_account_number s = Some a ->
      preferences a !! "fast_cash_amount" = Some v ->
      as_number v = Some n ->
      number_gtb_float n (balance a) = false ->
      to_float n = Some x ->
      PrimFloat.ltb (daily_limit a) (daily_withdrawn a + x) = false ->
      exists d' a',
        fast_cash token now txid (Ledger d)
          = (Success (fast_cashed v (balance a') txid), Ledger d') /\
        accounts d' !! s_account_number s = Some a' /\
        daily_withdrawn a' = (daily_withdrawn a + x)%float) /\
  (forall token now txid d s a p f',
      session_tokens d !! token = Some s ->
      accounts d !! s_account_number s = Some a ->
      fast_cash token now txid (Ledger d) = (Success p, f') ->
      exists d' a' v n x,
        preferences a !! "fast_cash_amount" = Some v /\
        as_number v = Some n /\
        to_float n = Some x /\
        f' = Ledger d' /\ accounts d' !! s_account_number s = Some a' /\
        daily_withdrawn a' = (daily_withdrawn a + x)%float /\
        PrimFloat.ltb (daily_limit a') (daily_withdrawn a') = false).
Proof.
  split; [|split; [|split; [|split; [|split; [|split]]]]].
  - intros. eapply transfer_ignores_daily_withdrawn; eassumption.
  - intros token amount note now txid d s a Hs Ha Hover.
    destruct (withdraw_enforces_daily_limit token amount note now txid d s a
                Hs Ha Hover) as (H1 & H2 & _).
    split; assumption.
  - intros token amount note now txid d s a Hs Ha Hpos Hcap Hlim Hfunds.
    destruct (withdraw_accepts token amount note now txid d s a
                Hs Ha Hpos Hcap Hlim Hfunds) as (d' & a' & H1 & H2 & _ & H3).
    exists d', a'. repeat split; assumption.
  - intros token amount note now txid d s a p f' Hs Ha Hw.
    destruct (withdraw_counts_towards_limit _ _ _ _ _ _ _ _ _ _ Hs Ha Hw)
      as (x & d' & a' & H0 & H1 & H2 & H3 & _ & H4).
    exists x, d', a'. repeat split; assumption.
  - intros token now txid d s a v n x Hs Ha Hv Hn Hx Hover.
    destruct (fast_cash_enforces_daily_limit token now txid d s a v n x
                Hs Ha Hv Hn Hx Hover) as (H1 & H2 & _).
    split; assumption.
  - intros token now txid d s a v n x Hs Ha Hv Hn Hfunds Hx Hlim.
    destruct (fast_cash_accepts token now txid d s a v n x
                Hs Ha Hv Hn Hfunds Hx Hlim)
      as (d' & a' & t & H1 & H2 & _ & H3 & _).
    exists d', a'. repeat split; assumption.
  - intros token now txid d s a p f' Hs Ha Hw.
    destruct (fast_cash_counts_towards_limit _ _ _ _ _ _ _ _ Hs Ha Hw)
      as (d' & a' & v & n & x & H1 & H2 & H3 & H4 & H5 & H6 & _ & H7).
    exists d', a', v, n, x. repeat split; assumption.
Qed.

Lemma daily_limit_asymmetry_witness :
  PrimFloat.ltb (daily_limit heavy_alice) (daily_withdrawn heavy_alice + 2000)
    = true /\
  (exists p d' sender' recipient',
      transfer "TOKEN" "222222" (Some 2000%float) "" after_midnight "TX1"
               (Ledger heavy_bank)
        = (Success p, Ledger d') /\
      accounts d' !! "111111" = Some sender' /\
      accounts d' !! "222222" = Some recipient' /\
      daily_withdrawn sender' = daily_withdrawn heavy_alice /\
      daily_withdrawn recipient' = daily_withdrawn bob) /\
  (is_success (withdraw "TOKEN" (Some 2000%float) "" after_midnight "TX1"
                        (Ledger heavy_bank)).1 = false /\
   (withdraw "TOKEN" (Some 2000%float) "" after_midnight "TX1"
             (Ledger heavy_bank)).2 = Ledger heavy_bank) /\
  (exists d' a',
      withdraw "TOKEN" (Some 500%float) "" after_midnight "TX1"
               (Ledger heavy_bank)
        = (Success (moved (balance a') "TX1" after_midnight), Ledger d') /\
      accounts d' !! "111111" = Some a' /\
      daily_withdrawn a' = (4000 + 500)%float) /\
  (is_success (fast_cash "TOKEN" after_midnight "TX1" (Ledger keen_bank)).1
     = false /\
   (fast_cash "TOKEN" after_midnight "TX1" (Ledger keen_bank)).2
     = Ledger keen_bank) /\
  (exists d' a',
      fast_cash "TOKEN" after_midnight "TX1" (Ledger heavy_bank)
        = (Success (fast_cashed (PInt 100) (balance a') "TX1"), Ledger d') /\
      accounts d' !! "111111" = Some a' /\
      daily_withdrawn a' = (4000 + 100)%float).
Proof.
  destruct daily_limit_asymmetry as (T & W1 & W2 & _ & F1 & F2 & _).
  split; [vm_compute; reflexivity|].
  split; [|split; [|split; [|split]]].
  - apply (T "TOKEN" "222222" 2000%float "" after_midnight "TX1" heavy_bank
             late_session heavy_alice bob);
      first [ discriminate | vm_compute; reflexivity ].
  - apply (W1 "TOKEN" 2000%float "" after_midnight "TX1" heavy_bank
              late_session heavy_alice); vm_compute; reflexivity.
  - apply (W2 "TOKEN" 500%float "" after_midnight "TX1" heavy_bank
              late_session heavy_alice); vm_compute; reflexivity.
  - apply (F1 "TOKEN" after_midnight "TX1" keen_bank late_session keen_alice
              (PInt 2000) (NInt 2000) 2000%float); vm_compute; reflexivity.
  - apply (F2 "TOKEN" after_midnight "TX1" heavy_bank late_session heavy_alice
              (PInt 100) (NInt 100) 100%float); vm_compute; reflexivity.
Defined.

(** ** Fast cash with a non-positive configured amount *)






(** ** The PIN lockout *)

Section Lockout.

Context `{Hasher}.





End Lockout.


(** ** Sessions: expiry *)

(** [get_balance] refuses a session whose expiry lies strictly in the
    past, and writes nothing. *)
Lemma get_balance_rejects_expired token now d s :
  session_tokens d !! token = Some s ->
  s_expires_at s < now ->
  get_balance token now (Ledger d) = (Failure 401 msg_session_expired, Ledger d).
Proof.
  intros Hs Hexp. unfold get_balance. rewrite Hs.
  apply Z.ltb_lt in Hexp. rewrite Hexp. reflexivity.
Qed.

Lemma generate_account_number_with_expiry draws token e d :
  generate_account_number draws (with_expiry token e d)
  = generate_account_number draws d.
Proof.
  induction draws as [|acc_num rest IH]; simpl; [reflexivity|].
  rewrite IH. reflexivity.
Qed.

Lemma lookup_with_expiry token e d token' :
  session_tokens (with_expiry token e d) !! token'
  = if decide (token = token')
    then set_expires_at e <$> session_tokens d !! token
    else session_tokens d !! token'.
Proof. unfold with_expiry. simpl. apply lookup_alter. Qed.

Ltac expiry_cases :=
  rewrite ?lookup_with_expiry;
  repeat case_decide; subst;
  try match goal with
      | |- context [session_tokens ?d !! ?t] =>
          destruct (session_tokens d !! t) eqn:?
      end;
  simpl; repeat case_match; simplify_eq /=;
  try reflexivity; try congruence.

(** X26.  No handler but [get_balance] reads [expires_at]: the reply to any
    other request is the same whatever the expiry of any session. *)
Lemma expiry_read_by_get_balance_only `{Hasher} r now token e d :
  is_balance r = false ->
  fst <$> handle r now (Ledger (with_expiry token e d))
  = fst <$> handle r now (Ledger d).
Proof.
  intros Hr. destruct r; try discriminate Hr; clear Hr; cbn [handle].
  - unfold register.
    rewrite generate_account_number_with_expiry.
    repeat case_match; simplify_eq /=; reflexivity.
  - unfold login, check_account_lock. expiry_cases.
  - unfold logout. expiry_cases.
  - unfold withdraw. expiry_cases.
  - unfold deposit. expiry_cases.
  - unfold transfer. expiry_cases.
  - unfold get_transactions. expiry_cases.
  - unfold change_pin. expiry_cases.
  - unfold fast_cash. expiry_cases.
  - unfold update_preferences. expiry_cases.
  - unfold get_account_info. expiry_cases.
Qed.

(** C1.  Only [get_balance] compares the clock with [expires_at].  With a
    token issued at time 0 and never renewed, 31 minutes later getBalance
    answers "Session expired", but withdraw, deposit, transfer,
    listTransactions, changePin, fastCash, updatePreferences and
    getAccountInfo all succeed, and withdraw debits the account.  At the
    instant of expiry itself (now = expires_at) getBalance still succeeds. *)
Theorem expired_session_accepted :
  session_of "TOKEN" (Ledger bank) = Some (Session "111111" 0 (minutes 30)) /\
  get_balance "TOKEN" (minutes 31) (Ledger bank)
    = (Failure 401 msg_session_expired, Ledger bank) /\
  (withdraw "TOKEN" (Some 30%float) "" (minutes 31) "TX1" (Ledger bank)).1
    = Success (moved 70%float "TX1" (minutes 31)) /\
  balance <$> account_of "111111"
                (withdraw "TOKEN" (Some 30%float) "" (minutes 31) "TX1" (Ledger bank)).2
    = Some 70%float /\
  (deposit "TOKEN" (Some 30%float) "" (minutes 31) "TX1" (Ledger bank)).1
    = Success (moved 130%float "TX1" (minutes 31)) /\
  (transfer "TOKEN" "222222" (Some 50%float) "" (minutes 31) "TX1" (Ledger bank)).1
    = Success (moved 50%float "TX1" (minutes 31)) /\
  is_success (get_transactions "TOKEN" (PInt 10) (minutes 31) (Ledger bank)).1 = true /\
  (@change_pin clear_hasher "TOKEN" "1234" "9999" "salt" (Ledger bank)).1
    = Success pin_changed /\
  (fast_cash "TOKEN" (minutes 31) "TX1" (Ledger bank)).1
    = Success (fast_cashed (PInt 100) 0%float "TX1") /\
  is_success (update_preferences "TOKEN" ∅ (Ledger bank)).1 = true /\
  is_success (get_account_info "TOKEN" (Ledger bank)).1 = true /\
  is_success (get_balance "TOKEN" (minutes 30) (Ledger bank)).1 = true.
Proof. repeat split; vm_compute; reflexivity. Qed.

(** ** Sessions: renewal *)

Section Renewal.

Context `{Hasher}.

(** X25.  The six handlers that assign [expires_at] move the expiry of the
    session they served to now + 30 minutes, once, and touch no other
    session. *)
Lemma renewing_handlers_slide_expiry r now token d p f' :
  renews r = true ->
  request_token r = Some token ->
  handle r now (Ledger d) = Some (Success p, f') ->
  exists d' s,
    f' = Ledger d' /\
    session_tokens d !! token = Some s /\
    session_tokens d' !! token = Some (set_expires_at (now + minutes 30) s) /\
    forall token', token' <> token ->
                   session_tokens d' !! token' = session_tokens d !! token'.
Proof.
  intros Hr Htok Hh.
  destruct r; try discriminate Hr; simpl in Htok; injection Htok as ->;
    cbn [handle] in Hh; injection Hh as Hh;
    [ unfold get_balance in Hh | unfold withdraw in Hh | unfold deposit in Hh
    | unfold transfer in Hh | unfold get_transactions in Hh
    | unfold fast_cash in Hh ];
    repeat case_match; simplify_eq;
    (eexists _, _; split; [reflexivity|]; split; [reflexivity|]; simpl; split;
     [ rewrite lookup_alter_eq;
       match goal with E : session_tokens _ !! _ = Some _ |- _ => rewrite E end;
       reflexivity
     | intros token' Hne; apply lookup_alter_ne; congruence ]).
Qed.

(** [change_pin], [update_preferences] and [get_account_info] leave every
    session as it was. *)
Lemma silent_handlers_keep_sessions r now d rep d' :
  match r with
  | ReqChangePin _ _ _ _ | ReqUpdatePreferences _ _ | ReqAccountInfo _ => True
  | _ => False
  end ->
  handle r now (Ledger d) = Some (rep, Ledger d') ->
  session_tokens d' = session_tokens d.
Proof.
  intros Hr Hh.
  destruct r; try contradiction; cbn [handle] in Hh; injection Hh as Hh;
    [ unfold change_pin in Hh | unfold update_preferences in Hh
    | unfold get_account_info in Hh ];
    repeat case_match; simplify_eq; reflexivity.
Qed.

End Renewal.

(** C9.  getBalance, withdraw, deposit, transfer, listTransactions and
    fastCash renew the session to now + 30 minutes, but changePin,
    updatePreferences and getAccountInfo succeed without touching it: after
    any of the three the session still expires 30 minutes after login, so a
    session used by changePin at minute 10 is refused by getBalance at
    minute 35. *)
Theorem three_handlers_do_not_renew :
  session_of "TOKEN" (Ledger bank) = Some (Session "111111" 0 (minutes 30)) /\
  (@change_pin clear_hasher "TOKEN" "1234" "9999" "salt" (Ledger bank)).1
    = Success pin_changed /\
  session_of "TOKEN"
    (@change_pin clear_hasher "TOKEN" "1234" "9999" "salt" (Ledger bank)).2
    = Some (Session "111111" 0 (minutes 30)) /\
  is_success (update_preferences "TOKEN" {["language" := PStr "fr"]}
                                 (Ledger bank)).1 = true /\
  session_of "TOKEN"
    (update_preferences "TOKEN" {["language" := PStr "fr"]} (Ledger bank)).2
    = Some (Session "111111" 0 (minutes 30)) /\
  is_success (get_account_info "TOKEN" (Ledger bank)).1 = true /\
  session_of "TOKEN" (get_account_info "TOKEN" (Ledger bank)).2
    = Some (Session "111111" 0 (minutes 30)) /\
  session_of "TOKEN"
    (withdraw "TOKEN" (Some 30%float) "" (minutes 10) "TX1" (Ledger bank)).2
    = Some (Session "111111" 0 (minutes 10 + minutes 30)) /\
  (get_balance "TOKEN" (minutes 35)
     (@change_pin clear_hasher "TOKEN" "1234" "9999" "salt" (Ledger bank)).2).1
    = Failure 401 msg_session_expired.
Proof. repeat split; vm_compute; reflexivity. Qed.

(** ** Logout *)

(** Logout with a token that is not a session answers success and writes
    nothing. *)
Lemma logout_unknown_token data d :
  session_tokens d !! lb_token data = None ->
  logout data (Ledger d) = (Success logged_out, Ledger d).
Proof. intros Hs. unfold logout. rewrite Hs. reflexivity. Qed.

(** Logout with a live token replaces the whole file by the request body. *)
Lemma logout_live_token data d s :
  session_tokens d !! lb_token data = Some s ->
  logout data (Ledger d) = (Success logged_out, lb_rest data).
Proof. intros Hs. unfold logout. rewrite Hs. reflexivity. Qed.

(** C2.  Logout with a live token does not write the ledger without that
    session: [save_data(data)] writes the request body.  After a logout
    whose body holds only the token, the file is no ledger any more: the
    accounts and transactions are gone, a second logout with the same token
    raises instead of succeeding, and so does every other request.  Only
    logout with an unknown token behaves as specified. *)
Theorem logout_overwrites_ledger :
  session_of "TOKEN" (Ledger bank) = Some (Session "111111" 0 (minutes 30)) /\
  logout plain_body (Ledger bank) = (Success logged_out, Foreign) /\
  (logout plain_body (Ledger bank)).2
    <> Ledger (set_session_tokens (delete "TOKEN" (session_tokens bank)) bank) /\
  account_of "111111" (logout plain_body (Ledger bank)).2 = None /\
  account_of "222222" (logout plain_body (Ledger bank)).2 = None /\
  logout plain_body (logout plain_body (Ledger bank)).2 = (ServerError, Foreign) /\
  (@login clear_hasher "111111" "1234" 5 "T2" (logout plain_body (Ledger bank)).2).1
    = ServerError /\
  logout (LogoutBody "OTHER" Foreign) (Ledger bank)
    = (Success logged_out, Ledger bank).
Proof.
  repeat split; try (vm_compute; reflexivity).
  vm_compute. discriminate.
Qed.

(** ** The monetary invariant *)

(** C4.  Logout does not preserve the invariant.  From the empty ledger, Bob
    registers with 10 and logs in; every account then has balance >= 0 and
    daily_withdrawn <= daily_limit.  A logout with his token whose body also
    carries the five ledger keys writes that body as the ledger: afterwards
    account 222222 has balance -500. *)
Theorem logout_breaks_invariant :
  @reachable clear_hasher bob_logged_in /\
  document_ok bob_logged_in /\
  session_of "TOKEN" bob_logged_in = Some (Session "222222" 1 (1 + minutes 30)) /\
  @handle clear_hasher (ReqLogout crafted_body) 2 bob_logged_in
    = Some (Success logged_out, lb_rest crafted_body) /\
  account_of "222222" (lb_rest crafted_body) = Some indebted_bob /\
  PrimFloat.leb 0 (balance indebted_bob) = false /\
  ~ document_ok (lb_rest crafted_body).
Proof.
  split.
  { apply (@reachable_step clear_hasher (ReqLogin "222222" "4321" "TOKEN") 1
             bob_registered
             (Success (logged_in "TOKEN" "222222" "Bob" "Savings" 10%float))).
    - apply (@reachable_step clear_hasher
               (ReqRegister "Bob" "4321" (Some 10%float) ["222222"] "salt" "TX0") 0
               (Ledger empty_db) (Success (registered "222222" "Bob" 10%float))).
      + apply reachable_empty.
      + vm_compute. reflexivity.
    - vm_compute. reflexivity. }
  split.
  { assert (Hd : bob_logged_in
                  = Ledger (set_accounts
                              (<["222222" := bob]> ∅)
                              (ledger_of bob_logged_in)))
      by (vm_compute; reflexivity).
    rewrite Hd. simpl.
    apply map_Forall_insert_2; [vm_compute; reflexivity|].
    apply map_Forall_empty. }
  split; [vm_compute; reflexivity|].
  split; [vm_compute; reflexivity|].
  split; [vm_compute; reflexivity|].
  split; [vm_compute; reflexivity|].
  intros Hok.
  assert (Hk : accounts (Db (<["222222" := indebted_bob]> ∅) [] ∅ ∅ ∅) !! "222222"
               = Some indebted_bob) by apply lookup_insert_eq.
  pose proof (map_Forall_lookup_1 _ _ _ _ Hok Hk) as Hbad.
  vm_compute in Hbad. discriminate Hbad.
Qed.

(** ** The daily reset *)

Section DailyReset.

Context `{Hasher}.



End DailyReset.




(** ** The concrete scenarios of the specification *)

(** Scenario 1: Alice registers with 100 (one deposit transaction of 100),
    logs in, withdraws 30 and holds 70. *)
Example scenario_register_login_withdraw :
  exists f1 f2 f3,
    @register clear_hasher "Alice" "1234" (Some 100%float) 0 ["111111"] "salt" "TX0"
              (Ledger empty_db)
      = Some (Success (registered "111111" "Alice" 100%float), Ledger f1) /\
    transactions f1
      = [Transaction "TX0" deposit_t (PFloat 100) 0 100%float (Single "111111")
                     (Some "Initial deposit")] /\
    @login clear_hasher "111111" "1234" 1 "TOKEN" (Ledger f1)
      = (Success (logged_in "TOKEN" "111111" "Alice" "Savings" 100%float), Ledger f2) /\
    withdraw "TOKEN" (Some 30%float) "" 2 "TX1" (Ledger f2)
      = (Success (moved 70%float "TX1" 2), Ledger f3) /\
    balance <$> accounts f3 !! "111111" = Some 70%float.
Proof.
  eexists _, _, _.
  split; [vm_compute; reflexivity|].
  split; [vm_compute; reflexivity|].
  split; [vm_compute; reflexivity|].
  split; vm_compute; reflexivity.
Qed.

(** Scenario 2: with 4500 of 5000 withdrawn today, a withdrawal of 1000 is
    refused and the ledger is unchanged. *)
Example scenario_limit_exceeded :
  let d := set_accounts
             (<["111111" := set_daily_withdrawn 4500%float
                              (set_balance 9000%float alice)]> (accounts bank))
             bank in
  withdraw "TOKEN" (Some 1000%float) "" 5 "TX1" (Ledger d)
  = (Failure 400 (msg_daily_limit (Some 500%float)), Ledger d).
Proof. vm_compute. reflexivity. Qed.

(** Scenario 3: the third wrong PIN reports locked, and the right PIN within
    30 minutes is still refused as locked. *)
Example scenario_lockout :
  let f1 := (@login clear_hasher "111111" "0000" 1 "K1" (Ledger bank)).2 in
  let f2 := (@login clear_hasher "111111" "0000" 2 "K2" f1).2 in
  let r3 := @login clear_hasher "111111" "0000" 3 "K3" f2 in
  r3.1 = Failure 403 msg_locked_3_attempts /\
  (@login clear_hasher "111111" "1234" (minutes 29) "K4" r3.2).1
    = Failure 403 (msg_locked_try_again 1) /\
  is_success (@login clear_hasher "111111" "1234" (3 + minutes 30) "K5" r3.2).1
    = true.
Proof. repeat split; vm_compute; reflexivity. Qed.

(** Scenario 4: a transfer of 50 from an account holding 70 leaves 20,
    credits the recipient with 50 and records one transaction with both
    account numbers. *)
Example scenario_transfer :
  let d := set_accounts (<["111111" := set_balance 70%float alice]> (accounts bank))
                        bank in
  let r := transfer "TOKEN" "222222" (Some 50%float) "" 5 "TX1" (Ledger d) in
  r.1 = Success (moved 20%float "TX1" 5) /\
  balance <$> account_of "111111" r.2 = Some 20%float /\
  balance <$> account_of "222222" r.2 = Some 60%float /\
  match r.2 with
  | Ledger d' =>
      transactions d'
      = transactions d ++
        [Transaction "TX1" transfer_t (PFloat 50) 5 20%float
                     (FromTo "111111" "222222")
                     (Some "")]
  | Foreign => False
  end.
Proof. repeat split; vm_compute; reflexivity. Qed.

(** ** The example ledgers are ledgers the handlers build *)

Lemma run_reachable r now f :
  @reachable clear_hasher f -> @reachable clear_hasher (run r now f).
Proof.
  intros Hf. unfold run.
  destruct (@handle clear_hasher r now f) as [[rep f']|] eqn:Hh; [|exact Hf].
  exact (@reachable_step clear_hasher r now f rep f' Hf Hh).
Qed.

Lemma example_documents :
  bank_document = Ledger bank /\
  heavy_bank_document = Ledger heavy_bank /\
  generous_bank_document = Ledger generous_bank.
Proof. repeat split; vm_compute; reflexivity. Qed.

Lemma bank_reachable : @reachable clear_hasher (Ledger bank).
Proof.
  destruct example_documents as (<- & _ & _).
  unfold bank_document. repeat apply run_reachable. apply reachable_empty.
Qed.

Lemma heavy_bank_reachable : @reachable clear_hasher (Ledger heavy_bank).
Proof.
  destruct example_documents as (_ & <- & _).
  unfold heavy_bank_document. repeat apply run_reachable. apply reachable_empty.
Qed.

Lemma generous_bank_reachable : @reachable clear_hasher (Ledger generous_bank).
Proof.
  destruct example_documents as (_ & _ & <-).
  unfold generous_bank_document, bank_document.
  repeat apply run_reachable. apply reachable_empty.
Qed.

Lemma example_accounts :
  accounts bank !! "111111" = Some alice /\
  accounts bank !! "222222" = Some bob /\
  accounts heavy_bank !! "111111" = Some heavy_alice /\
  session_tokens heavy_bank !! "TOKEN" = Some late_session /\
  accounts generous_bank !! "111111" = Some generous_alice.
Proof. repeat split; vm_compute; reflexivity. Qed.


(** * Further properties of the handlers *)

(** ** What the authenticated handlers leave alone *)



Ltac unfold_handlers H :=
  unfold register, login, check_account_lock, logout, get_balance, withdraw,
    deposit, transfer, get_transactions, change_pin, fast_cash,
    update_preferences, get_account_info in H.

Section Frame.

Context `{Hasher}.



End Frame.


(** ** Failures and the transaction log *)

Section Failures.

Context `{Hasher}.


(** X2.  Login and a history request whose limit cannot bound a slice are
    the only requests whose failure writes.  Any other request that does not
    succeed, whether refused or raising, leaves [DATA_FILE] exactly as it
    was.  A history request with a live token and a limit that is neither
    an integer nor null raises in its [return] statement, after the session
    has been renewed and saved. *)
Theorem only_login_writes_on_failure :
  (forall r now f rep f',
      is_login r = false ->
      bad_limit r = false ->
      handle r now f = Some (rep, f') ->
      is_success rep = false ->
      f' = f) /\
  (forall token limit now d s,
      session_tokens d !! token = Some s ->
      slice_stop limit = None ->
      get_transactions token limit now (Ledger d)
        = (ServerError, Ledger (renew token now d))).
Proof.
  split.
  - intros r now f rep f' Hr Hlim Hh Hrep.
    destruct r; try discriminate Hr; cbn [handle] in Hh;
      try injection Hh as Hh; unfold_handlers Hh; simpl in Hlim;
      repeat case_match; simplify_eq; try reflexivity; discriminate Hrep.
  - intros token limit now d s Hs Hlim. unfold get_transactions.
    rewrite Hs, Hlim. reflexivity.
Qed.

Lemma non_logout_keeps_ledger r now d rep f' :
  is_logout r = false ->
  handle r now (Ledger d) = Some (rep, f') ->
  exists d', f' = Ledger d'.
Proof.
  intros Hr Hh.
  destruct r; try discriminate Hr; cbn [handle] in Hh;
    try injection Hh as Hh; unfold_handlers Hh;
    repeat case_match; simplify_eq; eexists; reflexivity.
Qed.

Lemma non_logout_appends r now d rep d' :
  is_logout r = false ->
  handle r now (Ledger d) = Some (rep, Ledger d') ->
  exists l,
    transactions d' = transactions d ++ l /\
    (length l <= 1)%nat /\
    (is_success rep = false -> l = []).
Proof.
  intros Hr Hh.
  destruct r; try discriminate Hr; cbn [handle] in Hh;
    try injection Hh as Hh; unfold_handlers Hh;
    repeat case_match; simplify_eq; simpl;
    first [ exists []; rewrite app_nil_r; repeat split; simpl; (lia || done)
          | eexists [_]; repeat split; simpl; (lia || done) ].
Qed.

(** X3.  The transaction log is append-only: over any run of requests
    without a logout the document stays a ledger, the log it started with
    is a prefix of the log it ends with, and each request adds at most one
    entry. *)
Theorem log_is_append_only rs d f' :
  no_logout rs = true ->
  exec rs (Ledger d) = Some f' ->
  exists d' l,
    f' = Ledger d' /\
    transactions d' = transactions d ++ l /\
    (length l <= length rs)%nat.
Proof.
  revert d. induction rs as [|[r now] rest IH]; intros d Hno Hex.
  - injection Hex as <-. exists d, []. rewrite app_nil_r. repeat split. simpl. lia.
  - simpl in Hno. apply andb_true_iff in Hno as [Hr Hrest].
    apply negb_true_iff in Hr. simpl in Hr.
    simpl in Hex.
    destruct (handle r now (Ledger d)) as [[rep f1]|] eqn:Hh; [|discriminate].
    destruct (non_logout_keeps_ledger _ _ _ _ _ Hr Hh) as [d1 ->].
    destruct (non_logout_appends _ _ _ _ _ Hr Hh) as (l1 & Hl1 & Hlen1 & _).
    destruct (IH d1 Hrest Hex) as (d' & l & -> & Hl & Hlen).
    exists d', (l1 ++ l). split; [reflexivity|].
    split; [rewrite Hl, Hl1, app_assoc; reflexivity|].
    rewrite length_app. simpl. lia.
Qed.

End Failures.

Lemma only_login_writes_on_failure_witness :
  ((@change_pin clear_hasher "TOKEN" "0000" "9999" "salt" (Ledger bank)).1
     = Failure 401 msg_current_pin_incorrect /\
   (@change_pin clear_hasher "TOKEN" "0000" "9999" "salt" (Ledger bank)).2
     = Ledger bank) /\
  get_transactions "TOKEN" (PStr "5") (minutes 20) (Ledger bank)
    = (ServerError, Ledger (renew "TOKEN" (minutes 20) bank)) /\
  session_tokens (renew "TOKEN" (minutes 20) bank) !! "TOKEN"
    = Some (Session "111111" 0 (minutes 20 + minutes 30)).
Proof.
  destruct (@only_login_writes_on_failure clear_hasher) as [Hkeep Hraise].
  split; [split; [vm_compute; reflexivity|]|split; [|vm_compute; reflexivity]].
  - apply (Hkeep (ReqChangePin "TOKEN" "0000" "9999" "salt") 5 (Ledger bank)
             (@change_pin clear_hasher "TOKEN" "0000" "9999" "salt"
                          (Ledger bank)).1);
      [reflexivity | reflexivity | vm_compute; reflexivity
      | vm_compute; reflexivity].
  - apply (Hraise "TOKEN" (PStr "5") (minutes 20) bank
             (Session "111111" 0 (minutes 30)));
      [vm_compute; reflexivity | reflexivity].
Defined.

Lemma log_is_append_only_witness :
  exists d' l,
    @exec clear_hasher
          [(ReqDeposit "TOKEN" (Some 5%float) "" "TX1", 1); (ReqFastCash "TOKEN" "TX2", 2)]
          (Ledger bank) = Some (Ledger d') /\
    transactions d' = transactions bank ++ l /\ (length l <= 2)%nat.
Proof.
  destruct (@log_is_append_only clear_hasher
              [(ReqDeposit "TOKEN" (Some 5%float) "" "TX1", 1); (ReqFastCash "TOKEN" "TX2", 2)]
              bank
              (run (ReqFastCash "TOKEN" "TX2") 2
                   (run (ReqDeposit "TOKEN" (Some 5%float) "" "TX1") 1 (Ledger bank))))
    as (d' & l & Hd & Hl & Hlen); [reflexivity | vm_compute; reflexivity |].
  exists d', l. split; [|split; assumption].
  rewrite <- Hd. vm_compute. reflexivity.
Defined.

(** ** What a ledger built by the handlers obeys *)

Section WellFormed.

Context `{Hasher}.



Lemma register_effect name pin deposit now draws salt txid d p f' :
  register name pin deposit now draws salt txid (Ledger d)
    = Some (Success p, f') ->
  exists initial_deposit account_number d',
    deposit = Some initial_deposit /\
    f' = Ledger d' /\
    p = registered account_number name initial_deposit /\
    generate_account_number draws d = Some account_number /\
    accounts d !! account_number = None /\
    accounts d'
      = <[account_number :=
            Account (generate_password_hash salt pin) initial_deposit name
                    "Savings" 5000%float 0%float now now default_preferences]>
          (accounts d) /\
    failed_attempts d' = failed_attempts d /\
    locked_accounts d' = locked_accounts d /\
    session_tokens d' = session_tokens d /\
    transactions d'
      = transactions d ++
        (if PrimFloat.ltb 0 initial_deposit
         then [Transaction txid deposit_t (PFloat initial_deposit) now
                           initial_deposit (Single account_number)
                           (Some "Initial deposit")]
         else []) /\
    PrimFloat.ltb initial_deposit 0 = false /\
    (2 <= len name)%nat /\
    bad_pin pin = false.
Proof.
  unfold register. intros Hr.
  repeat case_match; simplify_eq.
  all: match goal with
       | E : _ || _ = false |- _ =>
           apply orb_false_iff in E as [_ E]; apply Nat.ltb_ge in E
       end.
  all: eexists _, _, _; split; [reflexivity|]; split; [reflexivity|];
    split; [reflexivity|]; split; [reflexivity|]; simpl.
  all: match goal with
       | E : generate_account_number ?l ?d = Some ?n |- _ =>
           assert (accounts d !! n = None) as Hfresh
             by (clear -E; induction l as [|x l IH]; simpl in E;
                 [discriminate|];
                 destruct (accounts d !! x) eqn:Hx;
                 [apply IH; exact E | injection E as <-; exact Hx])
       end.
  all: split; [exact Hfresh|].
  all: repeat match goal with
         | E : PrimFloat.ltb ?x ?y = _ |- context [PrimFloat.ltb ?x ?y] =>
             rewrite E
         end.
  all: rewrite ?app_nil_r; repeat split; try reflexivity; try assumption.
Qed.


End WellFormed.

Section WellFormedLogin.

Context `{Hasher}.





End WellFormedLogin.

Section Runs.

Context `{Hasher}.





End Runs.

(** ** The transaction history *)

Lemma insert_desc_perm x l : insert_desc x l ≡ₚ x :: l.
Proof.
  induction l as [|y l IH]; simpl; [reflexivity|].
  case_match; [|reflexivity].
  rewrite IH. apply Permutation_swap.
Qed.

Lemma sort_desc_perm l : sort_desc l ≡ₚ l.
Proof.
  unfold sort_desc. induction l as [|x l IH]; simpl; [reflexivity|].
  rewrite insert_desc_perm, IH. reflexivity.
Qed.

Lemma insert_desc_sorted x l :
  StronglySorted newer_or_equal l ->
  StronglySorted newer_or_equal (insert_desc x l).
Proof.
  induction l as [|y l IH]; simpl; intros Hl.
  - repeat constructor.
  - apply StronglySorted_cons in Hl as [Hy Hl].
    destruct (t_timestamp x <? t_timestamp y) eqn:Hxy.
    + apply Z.ltb_lt in Hxy. apply StronglySorted_cons. split; [|auto].
      rewrite insert_desc_perm. constructor; [unfold newer_or_equal; lia|exact Hy].
    + apply Z.ltb_ge in Hxy. apply StronglySorted_cons. split.
      * constructor; [exact Hxy|].
        eapply Forall_impl; [exact Hy|].
        unfold newer_or_equal. intros z Hz. lia.
      * apply StronglySorted_cons. split; assumption.
Qed.

Lemma sort_desc_sorted l : StronglySorted newer_or_equal (sort_desc l).
Proof.
  unfold sort_desc. induction l as [|x l IH]; simpl; [constructor|].
  apply insert_desc_sorted, IH.
Qed.

Lemma slice_to_split limit (l : list transaction) :
  slice_to limit l ++
  drop (Z.to_nat (if 0 <=? limit then limit else Z.of_nat (length l) + limit)) l
  = l.
Proof. unfold slice_to. case_match; apply take_drop. Qed.

(** ** The lock window and the failure counter *)

Section LoginEffects.

Context `{Hasher}.

(** X10.  A login that does not succeed never issues a session and never
    touches an account or the transaction log: all it can write are the
    failure counter and the lock record of the account it names. *)
Theorem failed_login_writes_counters_only
    account_number pin now session_token d rep f' :
  login account_number pin now session_token (Ledger d) = (rep, f') ->
  is_success rep = false ->
  exists d',
    f' = Ledger d' /\
    accounts d' = accounts d /\
    transactions d' = transactions d /\
    session_tokens d' = session_tokens d /\
    (forall k, k <> account_number ->
               failed_attempts d' !! k = failed_attempts d !! k /\
               locked_accounts d' !! k = locked_accounts d !! k).
Proof.
  unfold login, check_account_lock. intros Hl Hrep.
  repeat case_match; simplify_eq; try discriminate Hrep;
    (eexists; split; [reflexivity|]; simpl;
     split; [reflexivity|]; split; [reflexivity|]; split; [reflexivity|];
     intros k Hk;
     rewrite ?lookup_insert_ne, ?lookup_delete_ne by congruence;
     split; reflexivity).
Qed.

(** X11.  Failures count only in a row: after a successful login the next
    wrong PIN on that account reports 2 attempts remaining, whatever the
    count was before. *)
Theorem success_resets_failure_count
    account_number pin wrong now now' session_token k' d p f1 :
  wrong <> "" ->
  login account_number pin now session_token (Ledger d) = (Success p, f1) ->
  (forall account, account_of account_number f1 = Some account ->
                   check_password_hash (pin_hash account) wrong = false) ->
  exists f2,
    login account_number wrong now' k' f1
      = (Failure 401 (msg_invalid_pin 2), f2) /\
    session_of session_token f2
      = Some (Session account_number now (now + minutes 30)).
Proof.
  intros Hw Hl Hbad.
  unfold login in Hl.
  destruct (String.eqb account_number "" || String.eqb pin "") eqn:Hcred;
    [discriminate|].
  apply orb_false_iff in Hcred as [Hacc _].
  destruct (check_account_lock now now account_number d)
    as [[is_locked m] d1] eqn:Hc.
  destruct is_locked; [discriminate|].
  assert (Hunl : locked_accounts d1 !! account_number = None).
  { unfold check_account_lock in Hc. repeat case_match; simplify_eq; simpl;
      [apply lookup_delete_eq | assumption]. }
  destruct (accounts d1 !! account_number) as [account|] eqn:Ha; [|discriminate].
  destruct (check_password_hash (pin_hash account) pin);
    [|repeat case_match; discriminate].
  injection Hl as _ <-.
  specialize (Hbad (reset_account now account)).
  simpl in Hbad. rewrite lookup_fmap, Ha in Hbad. specialize (Hbad eq_refl).
  unfold login, check_account_lock. simpl.
  rewrite Hacc, (string_eqb_false _ _ Hw). simpl.
  rewrite Hunl. simpl. rewrite lookup_fmap, Ha. simpl.
  rewrite Hbad, lookup_delete_eq. simpl.
  eexists. split; [reflexivity|]. simpl. apply lookup_insert_eq.
Qed.

End LoginEffects.

(** ** The daily reset as a function *)

(** X12.  The daily reset happens once a day: once [reset_daily_limits] has
    run at [t1], running it again at any instant of the same or an earlier
    day changes nothing, so what was withdrawn since is not forgotten. *)
Theorem reset_daily_limits_once_a_day t1 t2 d :
  date t2 <= date t1 ->
  reset_daily_limits t2 (reset_daily_limits t1 d) = reset_daily_limits t1 d.
Proof.
  intros Hday. unfold reset_daily_limits, set_accounts. simpl. f_equal.
  apply map_eq. intros k. rewrite !lookup_fmap.
  destruct (accounts d !! k) as [a|]; [|reflexivity]. simpl. f_equal.
  unfold reset_account.
  destruct (date (last_reset a) <? date t1) eqn:H1; simpl.
  - assert ((date t1 <? date t2) = false) as -> by (apply Z.ltb_ge; lia).
    reflexivity.
  - apply Z.ltb_ge in H1.
    assert ((date (last_reset a) <? date t2) = false) as ->
      by (apply Z.ltb_ge; lia).
    reflexivity.
Qed.

Lemma reset_daily_limits_once_a_day_witness :
  reset_daily_limits (after_midnight + minutes 5)
    (reset_daily_limits after_midnight heavy_bank)
  = reset_daily_limits after_midnight heavy_bank.
Proof.
  apply reset_daily_limits_once_a_day. vm_compute. discriminate.
Defined.

Lemma failed_login_writes_counters_only_witness :
  exists d',
    (@login clear_hasher "111111" "0000" 5 "K1" (Ledger bank)).2 = Ledger d' /\
    accounts d' = accounts bank /\
    session_tokens d' = session_tokens bank.
Proof.
  destruct (@failed_login_writes_counters_only clear_hasher
              "111111" "0000" 5 "K1" bank
              (@login clear_hasher "111111" "0000" 5 "K1" (Ledger bank)).1
              (@login clear_hasher "111111" "0000" 5 "K1" (Ledger bank)).2)
    as (d' & Hd & Ha & _ & Hs & _);
    [vm_compute; reflexivity | vm_compute; reflexivity |].
  exists d'. repeat split; assumption.
Defined.

Lemma success_resets_failure_count_witness :
  exists f1 f2,
    @login clear_hasher "111111" "1234" 9 "T2"
           (run (ReqLogin "111111" "0001" "K2") 2
              (run (ReqLogin "111111" "0000" "K1") 1 (Ledger bank)))
      = (Success (logged_in "T2" "111111" "Alice" "Savings" 100%float), f1) /\
    @login clear_hasher "111111" "0000" 10 "K3" f1
      = (Failure 401 (msg_invalid_pin 2), f2).
Proof.
  pose (d := ledger_of
               (run (ReqLogin "111111" "0001" "K2") 2
                  (run (ReqLogin "111111" "0000" "K1") 1 (Ledger bank)))).
  destruct (@success_resets_failure_count clear_hasher
              "111111" "1234" "0000" 9 10 "T2" "K3" d
              (logged_in "T2" "111111" "Alice" "Savings" 100%float)
              (@login clear_hasher "111111" "1234" 9 "T2" (Ledger d)).2)
    as (f2 & Hf2 & _).
  - discriminate.
  - vm_compute. reflexivity.
  - intros account Ha. vm_compute in Ha. injection Ha as <-. reflexivity.
  - eexists _, f2. split; [|exact Hf2]. vm_compute. reflexivity.
Defined.

(** ** When the money handlers succeed, and what they answer *)

Section Receipts.

Context `{Hasher}.

(** X16.  The receipt agrees with the ledger: when withdraw, deposit,
    transfer or fast-cash succeeds, exactly one entry is appended to the
    log, stamped with the request's time and transaction id, and the balance
    in that entry is the balance now stored for the session's account. *)
Theorem receipt_matches_ledger r now token d p d' :
  is_money_request r = true ->
  request_token r = Some token ->
  handle r now (Ledger d) = Some (Success p, Ledger d') ->
  exists s a' t,
    session_tokens d !! token = Some s /\
    accounts d' !! s_account_number s = Some a' /\
    transactions d' = transactions d ++ [t] /\
    t_timestamp t = now /\
    t_balance_after t = balance a' /\
    match p with
    | moved new_balance transaction_id timestamp =>
        new_balance = balance a' /\ transaction_id = t_id t /\ timestamp = now
    | fast_cashed amount new_balance transaction_id =>
        new_balance = balance a' /\ transaction_id = t_id t /\
        amount = t_amount t
    | _ => False
    end.
Proof.
  intros Hr Htok Hh.
  destruct r; try discriminate Hr; simpl in Htok; injection Htok as ->;
    cbn [handle] in Hh; injection Hh as Hh; unfold_handlers Hh;
    repeat case_match; simplify_eq;
    try match goal with
      | E : String.eqb _ _ = false |- _ => apply String.eqb_neq in E
      end;
    (eexists _, _, _; split; [reflexivity|]; simpl;
     split; [first [ apply lookup_insert_eq
                   | rewrite lookup_insert_ne by congruence;
                     apply lookup_insert_eq ]|];
     simpl; repeat split).
Qed.

End Receipts.

(** ** Preferences *)

(** X18.  update_preferences merges: afterwards a supplied key holds the
    supplied value and every other key holds what it held; nothing else of
    the account and no other account changes; and sending the same
    preferences a second time writes the same ledger again. *)
Theorem update_preferences_merges token new_prefs d s a :
  session_tokens d !! token = Some s ->
  accounts d !! s_account_number s = Some a ->
  exists d' a',
    update_preferences token new_prefs (Ledger d)
      = (Success (prefs (preferences a')), Ledger d') /\
    accounts d' !! s_account_number s = Some a' /\
    (forall k, preferences a' !! k
               = match new_prefs !! k with
                 | Some v => Some v
                 | None => preferences a !! k
                 end) /\
    a' = set_preferences (preferences a') a /\
    (forall k, k <> s_account_number s -> accounts d' !! k = accounts d !! k) /\
    (update_preferences token new_prefs (Ledger d')).2 = Ledger d'.
Proof.
  intros Hs Ha. unfold update_preferences. rewrite Hs, Ha.
  eexists _, _. split; [reflexivity|]. simpl.
  split; [apply lookup_insert_eq|]. simpl.
  split; [|split; [reflexivity|split]].
  - intros k. rewrite lookup_union.
    destruct (new_prefs !! k), (preferences a !! k); reflexivity.
  - intros k Hk. apply lookup_insert_ne. congruence.
  - rewrite Hs, lookup_insert_eq. simpl.
    rewrite insert_insert_eq.
    rewrite (assoc_L (∪)), (idemp_L (∪)). reflexivity.
Qed.

Lemma update_preferences_merges_witness :
  exists d' a',
    (update_preferences "TOKEN" {["language" := PStr "fr"]} (Ledger bank)).2
      = Ledger d' /\
    accounts d' !! "111111" = Some a' /\
    preferences a' !! "language" = Some (PStr "fr") /\
    preferences a' !! "fast_cash_amount" = Some (PInt 100).
Proof.
  destruct (update_preferences_merges "TOKEN" {["language" := PStr "fr"]} bank
              (Session "111111" 0 (minutes 30)) alice)
    as (d' & a' & Hu & Ha' & Hp & _);
    [vm_compute; reflexivity | vm_compute; reflexivity |].
  exists d', a'. split; [rewrite Hu; reflexivity|]. split; [exact Ha'|].
  split; rewrite Hp; vm_compute; reflexivity.
Defined.

(** ** Registration *)

(** X19.  [generate_account_number] answers with the first number drawn that
    is not yet an account: it answers as soon as one is drawn, its answer is
    never an existing account, and it finds none only when every number
    drawn is taken. *)
Theorem generate_account_number_first_free draws d :
  match generate_account_number draws d with
  | Some n =>
      exists taken rest,
        draws = taken ++ n :: rest /\
        Forall (fun x => is_Some (accounts d !! x)) taken /\
        accounts d !! n = None
  | None => Forall (fun x => is_Some (accounts d !! x)) draws
  end.
Proof.
  induction draws as [|x l IH]; simpl; [constructor|].
  destruct (accounts d !! x) as [a|] eqn:Hx.
  - destruct (generate_account_number l d) as [n|].
    + destruct IH as (taken & rest & -> & Ht & Hn).
      exists (x :: taken), rest. split; [reflexivity|].
      split; [constructor; [rewrite Hx; eauto | exact Ht] | exact Hn].
    + constructor; [rewrite Hx; eauto | exact IH].
  - exists [], l. split; [reflexivity|]. split; [constructor | exact Hx].
Qed.

(** ** Round trips through the hasher *)

Section RoundTrips.

Context `{Hasher}.

(** What werkzeug promises: a digest verifies the PIN it was made from. *)
Hypothesis digest_verifies :
  forall salt pin, check_password_hash (generate_password_hash salt pin) pin = true.

(** X21.  Register, then log in: with the account number that register
    answered and the PIN it was given, login succeeds, answers the initial
    deposit as the balance and issues a session of 30 minutes, provided the
    number is a non-empty string that carries no lock record. *)
Theorem register_then_login
    name pin initial_deposit now draws salt txid d account_number f1
    now' session_token :
  register name pin (Some initial_deposit) now draws salt txid (Ledger d)
    = Some (Success (registered account_number name initial_deposit), f1) ->
  account_number <> "" ->
  locked_accounts d !! account_number = None ->
  exists f2,
    login account_number pin now' session_token f1
      = (Success (logged_in session_token account_number name "Savings"
                            initial_deposit), f2) /\
    session_of session_token f2
      = Some (Session account_number now' (now' + minutes 30)).
Proof.
  intros Hr Hacc Hlock.
  assert (Hpin : pin <> "").
  { intros ->. unfold register in Hr.
    repeat case_match; simplify_eq. }
  destruct (register_effect _ _ _ _ _ _ _ _ _ _ Hr)
    as (x & n & d' & Hx & -> & Hp & _ & _ & Ha & _ & Hl & _).
  injection Hx as <-. injection Hp as <-.
  unfold login, check_account_lock.
  rewrite (string_eqb_false _ _ Hacc), (string_eqb_false _ _ Hpin). simpl.
  rewrite Hl, Hlock. simpl. rewrite Ha, lookup_insert_eq. simpl.
  rewrite digest_verifies.
  eexists. split; [reflexivity|]. simpl. apply lookup_insert_eq.
Qed.

(** X22.  Change the PIN, then log in: after a successful change-pin the
    balance, limits, preferences and every other account are untouched, and
    a login with the new PIN succeeds when the account is not locked. *)
Theorem change_pin_then_login
    token current_pin new_pin salt d s a f1 now session_token :
  session_tokens d !! token = Some s ->
  accounts d !! s_account_number s = Some a ->
  change_pin token current_pin new_pin salt (Ledger d) = (Success pin_changed, f1) ->
  s_account_number s <> "" ->
  locked_accounts d !! s_account_number s = None ->
  account_of (s_account_number s) f1
    = Some (set_pin_hash (generate_password_hash salt new_pin) a) /\
  (forall k, k <> s_account_number s -> account_of k f1 = accounts d !! k) /\
  is_success (login (s_account_number s) new_pin now session_token f1).1 = true.
Proof.
  intros Hs Ha Hc Hacc Hlock.
  assert (Hpin : new_pin <> "").
  { intros ->. unfold change_pin in Hc. simpl in Hc. discriminate. }
  unfold change_pin in Hc. rewrite Hs, Ha in Hc.
  repeat case_match; simplify_eq. simpl.
  split; [apply lookup_insert_eq|].
  split; [intros k Hk; apply lookup_insert_ne; congruence|].
  unfold login, check_account_lock.
  rewrite (string_eqb_false _ _ Hacc), (string_eqb_false _ _ Hpin). simpl.
  rewrite Hlock. simpl. rewrite lookup_insert_eq. simpl.
  rewrite digest_verifies. reflexivity.
Qed.

End RoundTrips.

(** ** A file that is no ledger *)

Section Foreign.

Context `{Hasher}.

(** X23.  A file without the ledger's keys is never repaired: every request
    on it fails, by validation or by raising, and leaves it as it is, so
    after any run of requests it is still no ledger. *)
Theorem foreign_is_absorbing rs f :
  (forall r now rep f',
      handle r now Foreign = Some (rep, f') ->
      f' = Foreign /\ is_success rep = false) /\
  (exec rs Foreign = Some f -> f = Foreign).
Proof.
  assert (Hstep : forall r now rep f',
             handle r now Foreign = Some (rep, f') ->
             f' = Foreign /\ is_success rep = false).
  { intros r now rep f' Hh.
    destruct r; cbn [handle] in Hh; try injection Hh as Hh; unfold_handlers Hh;
      repeat case_match; simplify_eq; split; reflexivity. }
  split; [exact Hstep|].
  induction rs as [|[r now] rest IH]; simpl; [intros [= <-]; reflexivity|].
  destruct (handle r now Foreign) as [[rep f1]|] eqn:Hh; [|discriminate].
  destruct (Hstep _ _ _ _ Hh) as [-> _]. exact IH.
Qed.

(** X24.  The session that login issues is honoured by get_balance up to and
    including the thirtieth minute and refused after it: on the ledger that
    a successful login leaves, get_balance with the issued token succeeds
    exactly when now <= login time + 30 minutes. *)
Theorem login_session_lasts_30_minutes
    account_number pin t1 session_token d p f1 t2 :
  login account_number pin t1 session_token (Ledger d) = (Success p, f1) ->
  (is_success (get_balance session_token t2 f1).1 = true
   <-> t2 <= t1 + minutes 30) /\
  (t1 + minutes 30 < t2 ->
   get_balance session_token t2 f1 = (Failure 401 msg_session_expired, f1)).
Proof.
  intros Hl. unfold login in Hl.
  destruct (String.eqb account_number "" || String.eqb pin ""); [discriminate|].
  destruct (check_account_lock t1 t1 account_number d) as [[is_locked m] d1].
  destruct is_locked; [discriminate|].
  destruct (accounts d1 !! account_number) as [account|] eqn:Ha; [|discriminate].
  destruct (check_password_hash (pin_hash account) pin);
    [|repeat case_match; discriminate].
  injection Hl as _ <-.
  unfold get_balance. simpl. rewrite lookup_insert_eq. simpl.
  rewrite lookup_fmap, Ha. simpl.
  destruct (t1 + minutes 30 <? t2) eqn:Ht; simpl.
  - apply Z.ltb_lt in Ht. split; [split; [discriminate | lia] | reflexivity].
  - apply Z.ltb_ge in Ht. split; [split; [intros _; exact Ht | reflexivity] | lia].
Qed.

End Foreign.

(** ** The theorems at concrete requests *)


Lemma receipt_matches_ledger_witness :
  exists d' a' t,
    (withdraw "TOKEN" (Some 30%float) "" 5 "TX1" (Ledger bank)).2 = Ledger d' /\
    accounts d' !! "111111" = Some a' /\
    transactions d' = transactions bank ++ [t] /\
    t_balance_after t = balance a'.
Proof.
  destruct (@receipt_matches_ledger clear_hasher
              (ReqWithdraw "TOKEN" (Some 30%float) "" "TX1") 5 "TOKEN" bank
              (moved 70%float "TX1" 5)
              (ledger_of (withdraw "TOKEN" (Some 30%float) "" 5 "TX1" (Ledger bank)).2))
    as (s & a' & t & Hs & Ha & Ht & _ & Hb & _);
    [reflexivity | reflexivity | vm_compute; reflexivity |].
  vm_compute in Hs. injection Hs as <-.
  eexists _, a', t. split; [|split; [exact Ha|split; [exact Ht|exact Hb]]].
  vm_compute. reflexivity.
Defined.

Lemma clear_hasher_verifies salt pin :
  @check_password_hash clear_hasher (@generate_password_hash clear_hasher salt pin)
                       pin = true.
Proof. apply String.eqb_refl. Qed.

Lemma register_then_login_witness :
  exists f1 f2,
    @register clear_hasher "Carol" "0007" (Some 25%float) 9 ["333333"] "salt" "TX9"
              (Ledger bank)
      = Some (Success (registered "333333" "Carol" 25%float), f1) /\
    @login clear_hasher "333333" "0007" 10 "T3" f1
      = (Success (logged_in "T3" "333333" "Carol" "Savings" 25%float), f2).
Proof.
  pose (f1 := default Foreign
                (snd <$> @register clear_hasher "Carol" "0007" (Some 25%float) 9
                       ["333333"] "salt" "TX9" (Ledger bank))).
  assert (Hr : @register clear_hasher "Carol" "0007" (Some 25%float) 9 ["333333"] "salt"
                         "TX9" (Ledger bank)
               = Some (Success (registered "333333" "Carol" 25%float), f1))
    by (vm_compute; reflexivity).
  destruct (@register_then_login clear_hasher clear_hasher_verifies
              "Carol" "0007" 25%float 9 ["333333"] "salt" "TX9" bank "333333" f1
              10 "T3" Hr)
    as (f2 & Hf2 & _); [discriminate | vm_compute; reflexivity |].
  exists f1, f2. split; assumption.
Defined.

Lemma change_pin_then_login_witness :
  is_success
    (@login clear_hasher "111111" "9999" 7 "T2"
            (@change_pin clear_hasher "TOKEN" "1234" "9999" "salt" (Ledger bank)).2).1
  = true.
Proof.
  destruct (@change_pin_then_login clear_hasher clear_hasher_verifies
              "TOKEN" "1234" "9999" "salt" bank (Session "111111" 0 (minutes 30))
              alice
              (@change_pin clear_hasher "TOKEN" "1234" "9999" "salt" (Ledger bank)).2
              7 "T2")
    as (_ & _ & Hl);
    [vm_compute; reflexivity | vm_compute; reflexivity | vm_compute; reflexivity
    | discriminate | vm_compute; reflexivity |].
  exact Hl.
Defined.

Lemma foreign_is_absorbing_witness :
  (logout plain_body (Ledger bank)).2 = Foreign /\
  default (Ledger bank)
    (@exec clear_hasher
           [(ReqLogin "111111" "1234" "T2", 6); (ReqBalance "TOKEN", 7)]
           Foreign)
  = Foreign.
Proof.
  split; [vm_compute; reflexivity|].
  apply (@foreign_is_absorbing clear_hasher
           [(ReqLogin "111111" "1234" "T2", 6); (ReqBalance "TOKEN", 7)]).
  vm_compute. reflexivity.
Defined.

Lemma login_session_lasts_30_minutes_witness :
  is_success
    (get_balance "T2" (3 + minutes 30)
       (@login clear_hasher "111111" "1234" 3 "T2" (Ledger bank)).2).1 = true /\
  get_balance "T2" (4 + minutes 30)
    (@login clear_hasher "111111" "1234" 3 "T2" (Ledger bank)).2
  = (Failure 401 msg_session_expired,
     (@login clear_hasher "111111" "1234" 3 "T2" (Ledger bank)).2).
Proof.
  split.
  - apply (@login_session_lasts_30_minutes clear_hasher "111111" "1234" 3 "T2"
             bank (logged_in "T2" "111111" "Alice" "Savings" 100%float)
             (@login clear_hasher "111111" "1234" 3 "T2" (Ledger bank)).2
             (3 + minutes 30)); [vm_compute; reflexivity | lia].
  - apply (@login_session_lasts_30_minutes clear_hasher "111111" "1234" 3 "T2"
             bank (logged_in "T2" "111111" "Alice" "Savings" 100%float)
             (@login clear_hasher "111111" "1234" 3 "T2" (Ledger bank)).2
             (4 + minutes 30)); [vm_compute; reflexivity | lia].
Defined.


Lemma renewing_handlers_slide_expiry_witness :
  exists d' s,
    (get_balance "TOKEN" (minutes 20) (Ledger bank)).2 = Ledger d' /\
    session_tokens bank !! "TOKEN" = Some s /\
    session_tokens d' !! "TOKEN"
      = Some (set_expires_at (minutes 20 + minutes 30) s).
Proof.
  destruct (@renewing_handlers_slide_expiry clear_hasher (ReqBalance "TOKEN")
              (minutes 20) "TOKEN" bank
              (balance_info 100%float 5000%float 5000%float "Savings")
              (get_balance "TOKEN" (minutes 20) (Ledger bank)).2)
    as (d' & s & Hd & Hs & Hs' & _);
    [reflexivity | reflexivity | vm_compute; reflexivity |].
  exists d', s. repeat split; assumption.
Defined.

Lemma expiry_read_by_get_balance_only_witness :
  fst <$> @handle clear_hasher (ReqWithdraw "TOKEN" (Some 30%float) "" "TX1") (minutes 31)
            (Ledger (with_expiry "TOKEN" 0 bank))
  = fst <$> @handle clear_hasher (ReqWithdraw "TOKEN" (Some 30%float) "" "TX1") (minutes 31)
              (Ledger bank).
Proof.
  apply (@expiry_read_by_get_balance_only clear_hasher). reflexivity.
Defined.

(** ** Floats: what holds of every amount *)

Lemma add_nan x : (x + nan)%float = nan.
Proof.
  apply Prim2SF_inj. rewrite add_spec.
  change (Prim2SF nan) with S754_nan.
  unfold SF64add, SFadd. destruct (Prim2SF x); reflexivity.
Qed.

Lemma sub_nan x : (x - nan)%float = nan.
Proof.
  apply Prim2SF_inj. rewrite sub_spec.
  change (Prim2SF nan) with S754_nan.
  unfold SF64sub, SFsub. destruct (Prim2SF x); reflexivity.
Qed.

Lemma ltb_nan_r x : PrimFloat.ltb x nan = false.
Proof.
  rewrite ltb_spec. change (Prim2SF nan) with S754_nan.
  unfold SFltb, SFcompare. destruct (Prim2SF x); reflexivity.
Qed.

(** ** The monetary invariant without logout *)

(** X4.  Without logout the monetary invariant is not kept either: an
    amount that is not a number passes every check, because every
    comparison with NaN is false.  With a live token, withdraw of NaN
    succeeds on any account and stores NaN as balance and as
    daily_withdrawn, after which neither balance >= 0 nor daily_withdrawn <=
    daily_limit holds of the account; deposit of NaN succeeds likewise. *)
Theorem nan_amount_passes_every_check token note now txid d s a :
  session_tokens d !! token = Some s ->
  accounts d !! s_account_number s = Some a ->
  exists d' a',
    withdraw token (Some nan) note now txid (Ledger d)
      = (Success (moved nan txid now), Ledger d') /\
    accounts d' !! s_account_number s = Some a' /\
    balance a' = nan /\
    daily_withdrawn a' = nan /\
    PrimFloat.leb 0 (balance a') = false /\
    PrimFloat.leb (daily_withdrawn a') (daily_limit a') = false /\
    account_ok a' = false /\
    (deposit token (Some nan) note now txid (Ledger d)).1
      = Success (moved nan txid now).
Proof.
  intros Hs Ha. unfold withdraw, deposit.
  change (PrimFloat.leb nan 0) with false.
  change (PrimFloat.ltb 10000 nan) with false.
  change (PrimFloat.ltb 50000 nan) with false.
  cbv iota. rewrite Hs, Ha.
  rewrite !add_nan, !sub_nan, !ltb_nan_r. simpl.
  eexists _, _. split; [reflexivity|].
  split; [apply lookup_insert_eq|]. simpl.
  split; [reflexivity|]. split; [reflexivity|].
  split; [reflexivity|].
  assert (Hw : PrimFloat.leb nan (daily_limit a) = false).
  { rewrite leb_spec. change (Prim2SF nan) with S754_nan. reflexivity. }
  split; [exact Hw|].
  split; [reflexivity|]. reflexivity.
Qed.

Lemma nan_amount_passes_every_check_witness :
  exists d' a',
    withdraw "TOKEN" (Some nan) "" 5 "TX1" (Ledger bank)
      = (Success (moved nan "TX1" 5), Ledger d') /\
    accounts d' !! "111111" = Some a' /\
    balance a' = nan /\
    account_ok a' = false.
Proof.
  destruct (nan_amount_passes_every_check "TOKEN" "" 5 "TX1" bank
              (Session "111111" 0 (minutes 30)) alice)
    as (d' & a' & Hw & Ha & Hb & _ & _ & _ & Hok & _);
    [vm_compute; reflexivity | vm_compute; reflexivity |].
  exists d', a'. repeat split; assumption.
Defined.

(** ** What makes a request with a token raise *)

Section Raising.

Context `{Hasher}.


End Raising.


(** ** The history a session gets *)

(** X8.  A history request with a live token and a limit that is an
    integer or null always succeeds, a negative limit included, and renews
    the session.  What it answers is the newest part of the account's
    transactions: only transactions of the log in which the session's
    account is the account, the sender or the recipient; together with what
    it leaves out, a rearrangement of all of them in descending order of
    timestamp; all of them for null, min(limit, n) of the n for a limit >=
    0, and n + limit of them (none when that is negative) for a negative
    limit. *)
Theorem history_is_newest_first token limit now d s stop :
  session_tokens d !! token = Some s ->
  slice_stop limit = Some stop ->
  exists l rest,
    get_transactions token limit now (Ledger d)
      = (Success (history l), Ledger (renew token now d)) /\
    let mine := filter (fun t => concerns (s_account_number s) t = true)
                       (transactions d) in
    (forall t, t ∈ l ->
               t ∈ transactions d /\ concerns (s_account_number s) t = true) /\
    l ++ rest ≡ₚ mine /\
    StronglySorted newer_or_equal (l ++ rest) /\
    match stop with
    | None => rest = []
    | Some z =>
        (0 <= z -> length l = min (Z.to_nat z) (length mine)) /\
        (z < 0 -> length l = Z.to_nat (Z.of_nat (length mine) + z))
    end.
Proof.
  intros Hs Hstop. unfold get_transactions. rewrite Hs, Hstop.
  set (mine := filter (fun t => concerns (s_account_number s) t = true)
                      (transactions d)).
  assert (Hlen : length (sort_desc mine) = length mine)
    by (apply Permutation_length, sort_desc_perm).
  destruct stop as [z|]; simpl.
  - exists (slice_to z (sort_desc mine)),
      (drop (Z.to_nat (if 0 <=? z then z
                       else Z.of_nat (length (sort_desc mine)) + z))
            (sort_desc mine)).
    split; [reflexivity|].
    split; [|split; [|split; [|split]]].
    + intros t Ht.
      assert (t ∈ mine) as Hm.
      { rewrite <- (sort_desc_perm mine), <- (slice_to_split z (sort_desc mine)).
        apply elem_of_app. left. exact Ht. }
      apply list_elem_of_filter in Hm. tauto.
    + rewrite slice_to_split. apply sort_desc_perm.
    + rewrite slice_to_split. apply sort_desc_sorted.
    + intros Hl. unfold slice_to.
      apply Z.leb_le in Hl. rewrite Hl, length_take, Hlen. reflexivity.
    + intros Hl. unfold slice_to.
      apply Z.leb_gt in Hl. rewrite Hl, length_take, Hlen. lia.
  - exists (sort_desc mine), [].
    split; [reflexivity|]. rewrite app_nil_r.
    split; [|split; [|split]].
    + intros t Ht.
      assert (t ∈ mine) as Hm by (rewrite <- (sort_desc_perm mine); exact Ht).
      apply list_elem_of_filter in Hm. tauto.
    + apply sort_desc_perm.
    + apply sort_desc_sorted.
    + reflexivity.
Qed.

Lemma history_is_newest_first_witness :
  t_id <$> filter (fun t => concerns "111111" t = true) (transactions busy_bank)
    = ["TX0A"; "TX1"; "TX2"; "TX3"] /\
  exists l,
    get_transactions "TOKEN" (PInt (-1)) 10 (Ledger busy_bank)
      = (Success (history l), Ledger (renew "TOKEN" 10 busy_bank)) /\
    t_id <$> l = ["TX3"; "TX2"; "TX1"] /\
    t_timestamp <$> l = [9; 7; 5] /\
    length l = 3%nat.
Proof.
  split; [vm_compute; reflexivity|].
  destruct (history_is_newest_first "TOKEN" (PInt (-1)) 10 busy_bank
              (Session "111111" 0 (9 + minutes 30)) (Some (-1)))
    as (l & rest & Hg & _ & _ & _ & _ & Hlen);
    [vm_compute; reflexivity | reflexivity |].
  exists l. split; [exact Hg|].
  assert (Hl : l = slice_to (-1)
                     (sort_desc
                        (filter (fun t => concerns "111111" t = true)
                                (transactions busy_bank)))).
  { assert (Hg' : (get_transactions "TOKEN" (PInt (-1)) 10 (Ledger busy_bank)).1
                  = Success (history l)) by (rewrite Hg; reflexivity).
    vm_compute in Hg'. injection Hg' as <-. vm_compute. reflexivity. }
  split; [rewrite Hl; vm_compute; reflexivity|].
  split; [rewrite Hl; vm_compute; reflexivity|].
  rewrite Hlen by lia. vm_compute. reflexivity.
Defined.

(** ** The lock window *)

(** X9.  While an account is locked at the first clock reading,
    [check_account_lock] changes nothing and reports the whole minutes left
    of the 30 at its second reading, rounded down: a figure between 0 and
    30 that is 0 during the last minute of the lock, as long as the second
    reading still falls within the lock.  When the lock runs out between the
    two readings the difference is negative and the figure is taken from
    its [seconds] field: 1439 minutes when the second reading falls within
    the minute after the lock's end. *)
Theorem lock_minutes_remaining now now' account_number d lock_time :
  locked_accounts d !! account_number = Some lock_time ->
  lock_time <= now < lock_time + minutes 30 ->
  now <= now' ->
  exists m,
    check_account_lock now now' account_number d = ((true, m), d) /\
    0 <= m <= 1439 /\
    (now' <= lock_time + minutes 30 ->
     0 <= m <= 30 /\
     minutes m <= lock_time + minutes 30 - now' < minutes (m + 1)) /\
    (lock_time + minutes 30 < now' <= lock_time + minutes 31 -> m = 1439).
Proof.
  intros Hl [Hlo Hhi] Hle. unfold check_account_lock. rewrite Hl.
  apply Z.ltb_lt in Hhi as Hb. rewrite Hb.
  eexists. split; [reflexivity|].
  unfold minutes, td_seconds in *.
  set (delta := lock_time + 30 * 60 * 1000000 - now') in *.
  pose proof (Z.mod_pos_bound (delta / 1000000) 86400 ltac:(lia)) as B0.
  pose proof (Z.div_mod ((delta / 1000000) mod 86400) 60 ltac:(lia)) as E0.
  pose proof (Z.mod_pos_bound ((delta / 1000000) mod 86400) 60 ltac:(lia)) as B00.
  split; [lia|]. split.
  - intros Hin.
    assert (0 <= delta <= 1800000000) as Hd by (subst delta; lia).
    assert (0 <= delta / 1000000 <= 1800) as Hs.
    { split; [apply Z.div_pos; lia|].
      apply Z.div_le_upper_bound; lia. }
    rewrite (Z.mod_small (delta / 1000000) 86400) in * by lia.
    pose proof (Z.div_mod delta 1000000 ltac:(lia)) as E1.
    pose proof (Z.mod_pos_bound delta 1000000 ltac:(lia)) as B1.
    split; lia.
  - intros [Hout Hmin].
    assert (- 60000000 <= delta < 0) as Hd by (subst delta; lia).
    pose proof (Z.div_mod delta 1000000 ltac:(lia)) as E1.
    pose proof (Z.mod_pos_bound delta 1000000 ltac:(lia)) as B1.
    assert (- 60 <= delta / 1000000 <= -1) as Hs by lia.
    assert (Hm : (delta / 1000000) mod 86400 = delta / 1000000 + 86400).
    { symmetry. apply (Z.mod_unique _ _ (-1)); lia. }
    rewrite Hm in *. lia.
Qed.

Lemma lock_minutes_remaining_witness :
  locked_accounts locked_bank !! "111111" = Some 3 /\
  check_account_lock (minutes 29 + 30000003) (minutes 29 + 30000004)
                     "111111" locked_bank
    = ((true, 0), locked_bank) /\
  check_account_lock (3 + minutes 30 - 1) (3 + minutes 30 + 1)
                     "111111" locked_bank
    = ((true, 1439), locked_bank).
Proof.
  assert (Hl : locked_accounts locked_bank !! "111111" = Some 3)
    by (vm_compute; reflexivity).
  split; [exact Hl|]. split.
  - destruct (lock_minutes_remaining (minutes 29 + 30000003)
                (minutes 29 + 30000004) "111111" locked_bank 3 Hl)
      as (m & Hm & _ & Hin & _);
      [vm_compute; split; [discriminate|reflexivity] | vm_compute; discriminate |].
    rewrite Hm. destruct Hin as [_ Hb]; [vm_compute; discriminate|].
    unfold minutes in Hb. assert (m = 0) as -> by lia. reflexivity.
  - destruct (lock_minutes_remaining (3 + minutes 30 - 1) (3 + minutes 30 + 1)
                "111111" locked_bank 3 Hl)
      as (m & Hm & _ & _ & Hout);
      [vm_compute; split; [discriminate|reflexivity] | vm_compute; discriminate |].
    rewrite Hm, Hout; [reflexivity|].
    vm_compute. split; [reflexivity|discriminate].
Defined.

(** ** When the money handlers succeed *)

(** X13.  Withdraw succeeds exactly when [float] accepted the amount, the
    token is a session of an existing account, and none of the four tests
    of the handler is true of the amount: amount <= 0, amount > 10000,
    daily_withdrawn + amount > daily_limit (a float sum), amount > balance.
    An amount of exactly the remaining limit or exactly the balance is
    accepted. *)
Theorem withdraw_succeeds_iff token amount note now txid d :
  is_success (withdraw token amount note now txid (Ledger d)).1 = true <->
  exists x s a,
    amount = Some x /\
    PrimFloat.leb x 0 = false /\
    PrimFloat.ltb 10000 x = false /\
    session_tokens d !! token = Some s /\
    accounts d !! s_account_number s = Some a /\
    PrimFloat.ltb (daily_limit a) (daily_withdrawn a + x) = false /\
    PrimFloat.ltb (balance a) x = false.
Proof.
  unfold withdraw. split.
  - intros Hs. repeat case_match; simplify_eq; try discriminate Hs.
    eexists _, _, _. repeat split; first [eassumption | reflexivity].
  - intros (x & s & a & -> & Hpos & Hcap & Hs & Ha & Hlim & Hbal).
    rewrite Hpos, Hcap, Hs, Ha, Hlim, Hbal. reflexivity.
Qed.

(** X14.  Transfer succeeds exactly when [float] accepted the amount,
    neither amount <= 0 nor amount > 10000 is true of it, the token is a
    session of an existing account, the recipient is another existing
    account and amount > balance is not true of the sender; neither the
    daily limit nor the recipient's state matters. *)
Theorem transfer_succeeds_iff token to_account amount note now txid d :
  is_success (transfer token to_account amount note now txid (Ledger d)).1 = true
  <->
  exists x s sender,
    amount = Some x /\
    PrimFloat.leb x 0 = false /\
    PrimFloat.ltb 10000 x = false /\
    session_tokens d !! token = Some s /\
    s_account_number s <> to_account /\
    is_Some (accounts d !! to_account) /\
    accounts d !! s_account_number s = Some sender /\
    PrimFloat.ltb (balance sender) x = false.
Proof.
  unfold transfer. split.
  - intros Hs. repeat case_match; simplify_eq; try discriminate Hs.
    match goal with E : String.eqb _ _ = false |- _ => apply String.eqb_neq in E end.
    eexists _, _, _.
    repeat split; first [eassumption | reflexivity | eauto].
  - intros (x & s & a & -> & Hpos & Hcap & Hs & Hne & [b Hb] & Ha & Hbal).
    rewrite Hpos, Hcap, Hs, (string_eqb_false _ _ Hne), Hb, Ha, Hbal.
    reflexivity.
Qed.

(** X15.  Deposit succeeds exactly when [float] accepted the amount,
    neither amount <= 0 nor amount > 50000 is true of it, and the token is
    a session of an existing account; it then stores the float sum of
    balance and amount, leaves daily_withdrawn and every other account as
    they were, and appends one deposit entry. *)
Theorem deposit_succeeds_iff token amount note now txid d :
  (is_success (deposit token amount note now txid (Ledger d)).1 = true <->
   exists x s a,
     amount = Some x /\
     PrimFloat.leb x 0 = false /\
     PrimFloat.ltb 50000 x = false /\
     session_tokens d !! token = Some s /\
     accounts d !! s_account_number s = Some a) /\
  (forall x s a,
      amount = Some x ->
      session_tokens d !! token = Some s ->
      accounts d !! s_account_number s = Some a ->
      is_success (deposit token amount note now txid (Ledger d)).1 = true ->
      exists d' a',
        (deposit token amount note now txid (Ledger d)).2 = Ledger d' /\
        accounts d' !! s_account_number s = Some a' /\
        a' = set_balance (balance a + x)%float a /\
        (forall k, k <> s_account_number s ->
                   accounts d' !! k = accounts d !! k) /\
        transactions d'
          = transactions d ++
            [Transaction txid deposit_t (PFloat x) now (balance a')
                         (Single (s_account_number s)) (Some note)]).
Proof.
  unfold deposit. split; [split|].
  - intros Hs. repeat case_match; simplify_eq; try discriminate Hs.
    eexists _, _, _. repeat split; first [eassumption | reflexivity].
  - intros (x & s & a & -> & Hpos & Hcap & Hs & Ha).
    rewrite Hpos, Hcap, Hs, Ha. reflexivity.
  - intros x s a -> Hs Ha. rewrite Hs, Ha. intros Hok.
    repeat case_match; simplify_eq; try discriminate Hok.
    eexists _, _. split; [reflexivity|]. simpl.
    split; [apply lookup_insert_eq|].
    split; [reflexivity|].
    split; [intros k Hk; apply lookup_insert_ne; congruence|reflexivity].
Qed.

Lemma withdraw_succeeds_iff_witness :
  is_success (withdraw "TOKEN" (Some 1000%float) "" after_midnight "TX1"
                       (Ledger heavy_bank)).1 = true /\
  is_success (withdraw "TOKEN" (Some 1000.01%float) "" after_midnight "TX1"
                       (Ledger heavy_bank)).1 = false.
Proof.
  split.
  - apply withdraw_succeeds_iff.
    exists 1000%float, late_session, heavy_alice.
    repeat split; vm_compute; reflexivity.
  - destruct (is_success (withdraw "TOKEN" (Some 1000.01%float) ""
                                   after_midnight "TX1" (Ledger heavy_bank)).1)
      eqn:E; [|reflexivity].
    apply withdraw_succeeds_iff in E
      as (x & s & a & Hx & _ & _ & Hs & Ha & Hlim & _).
    injection Hx as <-.
    vm_compute in Hs. injection Hs as <-.
    vm_compute in Ha. injection Ha as <-.
    vm_compute in Hlim. discriminate Hlim.
Defined.

Lemma transfer_succeeds_iff_witness :
  is_success (transfer "TOKEN" "222222" (Some 9000%float) "" after_midnight
                       "TX1" (Ledger heavy_bank)).1 = true.
Proof.
  apply transfer_succeeds_iff.
  exists 9000%float, late_session, heavy_alice.
  split; [reflexivity|]. split; [vm_compute; reflexivity|].
  split; [vm_compute; reflexivity|]. split; [vm_compute; reflexivity|].
  split; [discriminate|].
  split; [exists bob; vm_compute; reflexivity|].
  split; vm_compute; reflexivity.
Defined.

Lemma deposit_succeeds_iff_witness :
  exists d' a',
    (deposit "TOKEN" (Some 50000%float) "" 5 "TX1" (Ledger bank)).2 = Ledger d' /\
    accounts d' !! "111111" = Some a' /\
    balance a' = 50100%float.
Proof.
  destruct (deposit_succeeds_iff "TOKEN" (Some 50000%float) "" 5 "TX1" bank)
    as [_ Heff].
  destruct (Heff 50000%float (Session "111111" 0 (minutes 30)) alice)
    as (d' & a' & Hd & Ha & Hb & _);
    [reflexivity | vm_compute; reflexivity | vm_compute; reflexivity
    | vm_compute; reflexivity |].
  exists d', a'. split; [exact Hd|]. split; [exact Ha|].
  rewrite Hb. vm_compute. reflexivity.
Defined.

(** ** The order of the checks *)

(** X17.  The two withdrawal paths order their checks differently.  When an
    amount both exceeds what is left of the daily limit and exceeds the
    balance, withdraw answers "Daily limit exceeded" and fast-cash answers
    "Insufficient funds"; and withdraw rejects a non-positive amount before
    it looks at the token or even at the file. *)
Theorem check_order token amount note now txid d s a v n :
  session_tokens d !! token = Some s ->
  accounts d !! s_account_number s = Some a ->
  preferences a !! "fast_cash_amount" = Some v ->
  as_number v = Some n ->
  to_float n = Some amount ->
  PrimFloat.leb amount 0 = false ->
  PrimFloat.ltb 10000 amount = false ->
  PrimFloat.ltb (daily_limit a) (daily_withdrawn a + amount) = true ->
  number_gtb_float n (balance a) = true ->
  (withdraw token (Some amount) note now txid (Ledger d)).1
    = Failure 400
        (msg_daily_limit (Some (daily_limit a - daily_withdrawn a)%float)) /\
  (fast_cash token now txid (Ledger d)).1 = Failure 400 msg_insufficient_funds /\
  (forall token' amount' f,
      PrimFloat.leb amount' 0 = true ->
      withdraw token' (Some amount') note now txid f
      = (Failure 400 msg_invalid_amount, f)).
Proof.
  intros Hs Ha Hv Hn Hx Hpos Hcap Hlim Hbal.
  split; [|split].
  - unfold withdraw. rewrite Hpos, Hcap, Hs, Ha, Hlim. reflexivity.
  - unfold fast_cash. rewrite Hs, Ha, Hv, Hn, Hbal. reflexivity.
  - intros token' amount' f Hle. unfold withdraw. rewrite Hle. reflexivity.
Qed.

Lemma check_order_witness :
  (withdraw "TOKEN" (Some 9500%float) "" after_midnight "TX1"
            (Ledger eager_bank)).1
    = Failure 400
        (msg_daily_limit
           (Some (daily_limit eager_alice - daily_withdrawn eager_alice)%float)) /\
  (fast_cash "TOKEN" after_midnight "TX1" (Ledger eager_bank)).1
    = Failure 400 msg_insufficient_funds.
Proof.
  destruct (check_order "TOKEN" 9500%float "" after_midnight "TX1" eager_bank
              late_session eager_alice (PInt 9500) (NInt 9500))
    as (Hw & Hf & _); try (vm_compute; reflexivity).
  split; [exact Hw | exact Hf].
Defined.

(** ** Registration *)

Section Registration.

Context `{Hasher}.

(** X20.  A successful register never overwrites: [float] accepted the
    deposit, the name has at least two characters, the PIN is four digits,
    initial_deposit < 0 is not true of the deposit, and the number it
    answers was no account before; the new account holds the initial
    deposit, nothing withdrawn, a limit of 5000 and the default preferences;
    every other account, every session, counter and lock stays as it was;
    and the log gains one "Initial deposit" entry when initial_deposit > 0
    is true and nothing otherwise. *)
Theorem register_never_overwrites
    holder pin deposit now draws salt txid d p f' :
  register holder pin deposit now draws salt txid (Ledger d)
    = Some (Success p, f') ->
  exists initial_deposit account_number d' a,
    deposit = Some initial_deposit /\
    f' = Ledger d' /\
    p = registered account_number holder initial_deposit /\
    (2 <= len holder)%nat /\
    len pin = 4%nat /\ isdigit pin = true /\
    PrimFloat.ltb initial_deposit 0 = false /\
    accounts d !! account_number = None /\
    accounts d' !! account_number = Some a /\
    balance a = initial_deposit /\
    daily_withdrawn a = 0%float /\ daily_limit a = 5000%float /\
    preferences a = default_preferences /\
    name a = holder /\
    (forall k, k <> account_number -> accounts d' !! k = accounts d !! k) /\
    session_tokens d' = session_tokens d /\
    failed_attempts d' = failed_attempts d /\
    locked_accounts d' = locked_accounts d /\
    (PrimFloat.ltb 0 initial_deposit = true ->
     transactions d'
       = transactions d ++
         [Transaction txid deposit_t (PFloat initial_deposit) now
                      initial_deposit (Single account_number)
                      (Some "Initial deposit")]) /\
    (PrimFloat.ltb 0 initial_deposit = false ->
     transactions d' = transactions d).
Proof.
  intros Hr.
  destruct (register_effect _ _ _ _ _ _ _ _ _ _ Hr)
    as (x & n & d' & -> & -> & -> & _ & Hfresh & Hacc & Hf & Hl & Hs & Ht
        & Hnn & Hname & Hpin).
  unfold bad_pin in Hpin.
  apply orb_false_iff in Hpin as [Hpin Hdig].
  apply orb_false_iff in Hpin as [_ Hlen].
  apply negb_false_iff in Hdig, Hlen. apply Nat.eqb_eq in Hlen.
  eexists x, n, d', _. split; [reflexivity|]. split; [reflexivity|].
  split; [reflexivity|]. split; [exact Hname|].
  split; [exact Hlen|]. split; [exact Hdig|]. split; [exact Hnn|].
  split; [exact Hfresh|].
  split; [rewrite Hacc; apply lookup_insert_eq|]. simpl.
  repeat (split; [reflexivity|]).
  split; [intros k Hk; rewrite Hacc; apply lookup_insert_ne; congruence|].
  repeat (split; [assumption|]).
  split.
  - intros Hpos. rewrite Hpos in Ht. exact Ht.
  - intros Hz. rewrite Hz, app_nil_r in Ht. exact Ht.
Qed.

End Registration.

Lemma register_never_overwrites_witness :
  len arabic_pin = 4%nat /\
  exists d' a,
    @register clear_hasher "Carol" arabic_pin (Some 0%float) 9
              ["111111"; "333333"] "salt" "TX9" (Ledger bank)
      = Some (Success (registered "333333" "Carol" 0%float), Ledger d') /\
    accounts d' !! "333333" = Some a /\
    accounts d' !! "111111" = accounts bank !! "111111" /\
    transactions d' = transactions bank.
Proof.
  pose (f' := default Foreign
                (snd <$> @register clear_hasher "Carol" arabic_pin (Some 0%float)
                       9 ["111111"; "333333"] "salt" "TX9" (Ledger bank))).
  destruct (@register_never_overwrites clear_hasher "Carol" arabic_pin
              (Some 0%float) 9 ["111111"; "333333"] "salt" "TX9" bank
              (registered "333333" "Carol" 0%float) f')
    as (x & n & d' & a & Hx & Hd & Hp & _ & Hlen & _ & _ & _ & Ha & _ & _ & _
        & _ & _ & Hk & _ & _ & _ & _ & Hz); [vm_compute; reflexivity|].
  injection Hx as <-. injection Hp as <-.
  split; [exact Hlen|].
  exists d', a. split; [rewrite <- Hd; vm_compute; reflexivity|].
  split; [exact Ha|]. split; [apply Hk; discriminate|].
  apply Hz. vm_compute. reflexivity.
Defined.
